(** * sales-dashboard: the cleaning pipeline of [src/data_prep.py]

    A shallow embedding of the function [clean] and of the pandas
    operations it calls, followed by the properties the specification
    states about the cleaned dataset.

    Layout:
    - [Float64]   : binary64 values and the operations [clean] uses on them
    - [Rounding]  : what "rounded to the nearest binary64 number" means,
                    stated on integers, apart from the float operations
    - [Text]      : Python's [str.strip] on ISO-8859-1 decoded text
    - [Calendar]  : the timestamp field accessors ([dt.year], [dt.month],
                    [dt.isocalendar().week], [dt.day_name()], ...)
    - [Frame]     : rows, data frames and the error monad
    - [Prep]      : [clean] itself, statement by statement, and the same
                    pipeline restated row by row
    - [IsoText]   : a text-to-timestamp parser for the concrete runs
    - [Samples]   : the frames of the concrete runs
    - [Views]     : relations between frames used in the statements
    - [Script]    : [repo_root], [load_raw], [save_clean] and [main] over
                    the file system and the libraries they call
    - [DemoSystem]: a small system for the concrete runs of [main]
    - [IsoWeek]   : the ISO 8601 week number as the standard defines it
    - [Float64Facts], [Float64Magnitude], [RoundingFacts], [TextFacts],
      [CalendarFacts], [FrameFacts], [PrepFacts] : the lemmas
    - the statements of the specification, C1 to C10
    - further properties of [clean] and of the script around it. *)

From Stdlib Require Import ZArith List String Ascii Bool Lia.
From Stdlib Require Import Floats.SpecFloat.
Import ListNotations.

Local Open Scope Z_scope.

(* ================================================================= *)
(** ** Binary64 numbers *)

Module Float64.

(** The [float64] dtype: IEEE 754 binary64, no NaN payload. *)
Definition prec : Z := 53.
Definition emax : Z := 1024.

Definition float64 : Type := spec_float.

Definition zero : float64 := S754_zero false.
Definition nan : float64 := S754_nan.

Definition mul (x y : float64) : float64 := SFmul prec emax x y.
Definition div (x y : float64) : float64 := SFdiv prec emax x y.

(** [int64 -> float64] conversion, round to nearest even. *)
Definition of_int (z : Z) : float64 := binary_normalize prec emax z 0 false.

(** Comparisons; every comparison with NaN is false. *)
Definition ltb (x y : float64) : bool := SFltb x y.
Definition eqb (x y : float64) : bool := SFeqb x y.

Definition isnan (x : float64) : bool :=
  match x with S754_nan => true | _ => false end.

(** [numpy.isfinite] *)
Definition isfinite (x : float64) : bool :=
  match x with
  | S754_zero _ | S754_finite _ _ _ => true
  | S754_infinity _ | S754_nan => false
  end.

(** The integer part of a float, as the hardware conversion takes it:
    the magnitude [m * 2^e] shifted down to its integer bits, then the
    sign put back. *)
Definition trunc (x : float64) : Z :=
  match x with
  | S754_finite s m e => cond_Zopp s (Z.shiftl (Zpos m) e)
  | _ => 0
  end.

Definition min_int64 : Z := - 2 ^ 63.
Definition max_int64 : Z := 2 ^ 63 - 1.

Definition in_int64 (z : Z) : bool := (min_int64 <=? z) && (z <=? max_int64).

(** [int64] arithmetic keeps the low 64 bits of a result, read as a
    signed number: numpy does not check integer overflow. *)
Definition wrap_int64 (z : Z) : Z := (z + 2 ^ 63) mod 2 ^ 64 - 2 ^ 63.

(** [ndarray.astype(int64)] on one finite float.  A float whose integer
    part does not fit 64 bits has no defined result in C; numpy returns
    what the x86-64 conversion instruction returns, the "integer
    indefinite" value [INT64_MIN]. *)
Definition to_int64 (x : float64) : Z :=
  let z := trunc x in
  if in_int64 z then z else min_int64.

(** The exact value of a float as a fraction [float_num / float_den],
    and truncation toward zero stated on that fraction. *)
Definition float_num (x : float64) : Z :=
  match x with
  | S754_finite s m e => cond_Zopp s (Zpos m * 2 ^ (Z.max e 0))
  | _ => 0
  end.

Definition float_den (x : float64) : Z :=
  match x with
  | S754_finite _ _ e => 2 ^ (Z.max (- e) 0)
  | _ => 1
  end.

Definition truncate_toward_zero (x : float64) : Z :=
  Z.quot (float_num x) (float_den x).

(** Round half to even on the same fraction, for contrast in examples. *)
Definition round_half_even (x : float64) : Z :=
  let n := float_num x in
  let d := float_den x in
  let q := Z.div n d in
  let r2 := 2 * (n - q * d) in
  if r2 <? d then q
  else if d <? r2 then q + 1
  else if Z.even q then q else q + 1.

(** Strictly positive values: the floats [x] with [x > 0]. *)
Definition positive_float (x : float64) : Prop :=
  match x with
  | S754_finite false _ _ | S754_infinity false => True
  | _ => False
  end.

(** A decimal literal [n / 10^k] as the file reader rounds it. *)
Definition decimal (n : Z) (k : Z) : float64 :=
  div (of_int n) (of_int (10 ^ k)).

End Float64.

(* ================================================================= *)
(** ** Rounding to nearest, stated on integers *)

Module Rounding.

Import Float64.


(** The exponent of the unit in the last place of binary64 at
    magnitude [d]: the binary64 numbers in [[2^(d-1), 2^d)] are the
    multiples of [2^(ulp_exp d)] there. *)
Definition ulp_exp (d : Z) : Z := Z.max (d - 53) (- 1074).

(** [z] is the positive number [M * 2^E] rounded to the nearest
    binary64 number, ties to the even mantissa.  The two numbers are
    compared in units of [2^c], [c] an exponent below all the others.
    - a finite [z] is a binary64 number at most half a unit in the last
      place away, with an even mantissa when exactly half a unit away;
    - [z] is zero when [M * 2^E] is at most half the smallest
      subnormal;
    - [z] is infinite from [2^1024 - 2^970] on, the midpoint between
      the largest binary64 number and [2^1024]. *)
Definition nearest (M E : Z) (z : float64) : Prop :=
  let u := ulp_exp (Z.log2 M + 1 + E) in
  match z with
  | S754_zero false =>
      let c := Z.min E u in
      2 * (M * 2 ^ (E - c)) <= 2 ^ (u - c)
  | S754_finite false m e =>
      let c := Z.min (Z.min e E) u in
      let d := Zpos m * 2 ^ (e - c) - M * 2 ^ (E - c) in
      valid_binary prec emax z = true
      /\ 2 * Z.abs d <= 2 ^ (u - c)
      /\ (2 * Z.abs d = 2 ^ (u - c) -> Z.even (Zpos m) = true)
  | S754_infinity false =>
      let c := Z.min E 970 in
      (2 ^ 54 - 1) * 2 ^ (970 - c) <= M * 2 ^ (E - c)
  | _ => False
  end.

(** [z] is the product of the positive floats [x] and [y], rounded
    once. *)
Definition rounded_product (x y z : float64) : Prop :=
  match x, y with
  | S754_finite false mx ex, S754_finite false my ey =>
      nearest (Zpos mx * Zpos my) (ex + ey) z
  | S754_finite false _ _, S754_infinity false
  | S754_infinity false, S754_finite false _ _
  | S754_infinity false, S754_infinity false => z = S754_infinity false
  | _, _ => False
  end.

End Rounding.

(* ================================================================= *)
(** ** Text *)

Module Text.

Local Open Scope string_scope.

(** [load_raw] decodes the file as ISO-8859-1, so every character of a
    text cell is a code point below 256 and is held in one [ascii].
    [str.isspace] on those code points. *)
Definition isspace (c : ascii) : bool :=
  let n := N_of_ascii c in
  (((9 <=? n) && (n <=? 13)) || ((28 <=? n) && (n <=? 32))
   || (n =? 133) || (n =? 160))%N.

Fixpoint lstrip (s : string) : string :=
  match s with
  | EmptyString => EmptyString
  | String c s' => if isspace c then lstrip s' else s
  end.

Fixpoint rstrip (s : string) : string :=
  match s with
  | EmptyString => EmptyString
  | String c s' =>
      match rstrip s' with
      | EmptyString => if isspace c then EmptyString else String c EmptyString
      | r => String c r
      end
  end.

(** [str.strip()] *)
Definition strip (s : string) : string := rstrip (lstrip s).

Fixpoint last_char (s : string) : option ascii :=
  match s with
  | EmptyString => None
  | String c EmptyString => Some c
  | String _ s' => last_char s'
  end.

Definition first_char (s : string) : option ascii :=
  match s with
  | EmptyString => None
  | String c _ => Some c
  end.

Definition is_space_opt (o : option ascii) : bool :=
  match o with Some c => isspace c | None => false end.

(** No whitespace at either end. *)
Definition trimmed (s : string) : bool :=
  negb (is_space_opt (first_char s)) && negb (is_space_opt (last_char s)).

Fixpoint all_space (s : string) : bool :=
  match s with
  | EmptyString => true
  | String c s' => isspace c && all_space s'
  end.

End Text.

(* ================================================================= *)
(** ** Calendar fields of a timestamp *)

Module Calendar.

(** A [datetime64[ns]] value counts nanoseconds from 1970-01-01T00:00. *)
Definition ns_per_day : Z := 86400 * 1000000000.

Definition days_of_ns (ns : Z) : Z := ns / ns_per_day.

(** Proleptic Gregorian date of a day count (days from 1970-01-01). *)
Definition civil_from_days (days : Z) : Z * Z * Z :=
  let z := days + 719468 in
  let era := z / 146097 in
  let doe := z - era * 146097 in
  let yoe := (doe - doe / 1460 + doe / 36524 - doe / 146096) / 365 in
  let y := yoe + era * 400 in
  let doy := doe - (365 * yoe + yoe / 4 - yoe / 100) in
  let mp := (5 * doy + 2) / 153 in
  let d := doy - (153 * mp + 2) / 5 + 1 in
  let m := if mp <? 10 then mp + 3 else mp - 9 in
  (if m <=? 2 then y + 1 else y, m, d).

(** The inverse, used to build timestamps from written dates. *)
Definition days_from_civil (y m d : Z) : Z :=
  let y' := if m <=? 2 then y - 1 else y in
  let era := y' / 400 in
  let yoe := y' - era * 400 in
  let doy := (153 * (if 2 <? m then m - 3 else m + 9) + 2) / 5 + d - 1 in
  let doe := yoe * 365 + yoe / 4 - yoe / 100 + doy in
  era * 146097 + doe - 719468.

Definition year_of (ns : Z) : Z := fst (fst (civil_from_days (days_of_ns ns))).
Definition month_of (ns : Z) : Z := snd (fst (civil_from_days (days_of_ns ns))).
Definition day_of (ns : Z) : Z := snd (civil_from_days (days_of_ns ns)).

Definition is_leapyear (year : Z) : bool :=
  ((year mod 4 =? 0) && negb (year mod 100 =? 0)) || (year mod 400 =? 0).

(** Days before the first of each month in a common year. *)
Definition month_offset (month : Z) : Z :=
  nth (Z.to_nat (month - 1))
      [0; 31; 59; 90; 120; 151; 181; 212; 243; 273; 304; 334] 0.

Definition get_day_of_year (year month day : Z) : Z :=
  month_offset month + day
  + (if is_leapyear year && (2 <? month) then 1 else 0).

(** Monday is 0.  1970-01-01 was a Thursday. *)
Definition dayofweek (days : Z) : Z := (days + 3) mod 7.

(** The week of [get_iso_calendar]: estimate, then fix the two ends of
    the year. *)
Definition get_week_of_year (year month day dow : Z) : Z :=
  let doy := get_day_of_year year month day in
  let est := (doy - 1) - dow + 3 in
  if est <? 0 then
    if (-2 <? est) || ((est =? -2) && is_leapyear (year - 1)) then 53 else 52
  else
    let w := est / 7 + 1 in
    if (w =? 53) && (31 - day + dow <? 3) then 1 else w.

Definition week_of (ns : Z) : Z :=
  get_week_of_year (year_of ns) (month_of ns) (day_of ns)
                   (dayofweek (days_of_ns ns)).

Definition DAYS_FULL : list string :=
  ["Monday"; "Tuesday"; "Wednesday"; "Thursday"; "Friday"; "Saturday";
   "Sunday"]%string.

Definition day_name_of (ns : Z) : string :=
  nth (Z.to_nat (dayofweek (days_of_ns ns))) DAYS_FULL EmptyString.

(** Timestamp of a written date and time of day. *)
Definition make_ns (y m d hh mm ss : Z) : Z :=
  (days_from_civil y m d * 86400 + hh * 3600 + mm * 60 + ss) * 1000000000.

End Calendar.

(* ================================================================= *)
(** ** Rows, frames and failure *)

Module Frame.

Import Float64.

(** A numeric cell of a column that is [int64] or [float64]: the two
    types [read_csv] gives a column of numbers, [float64] when a
    number has a fraction or a cell is empty. *)
Inductive Num : Type :=
| NInt (z : Z)
| NFloat (x : float64).

Inductive datetime : Type :=
| NaT
| Timestamp (ns : Z).

(** A cell of the [InvoiceDate] column: text as read from the file, or
    a datetime once converted.  A missing value of a text column
    ([None], [NaN]) is [DateTime NaT]: [to_datetime] maps all of them
    to [NaT] and [isna] is true of all of them. *)
Inductive DateCell : Type :=
| DateStr (s : string)
| DateTime (t : datetime).

(** One record.  The first eight fields are the columns of the raw
    file ([Customer_ID] is the column ["Customer ID"]); a text cell is
    [None] when missing.  The last six are the
    columns [clean] adds; [None] there is "no value": the column is not
    in the frame, or the cell is null. *)
Record Row : Type := mkRow {
  InvoiceNo : option string;
  StockCode : option string;
  Description : option string;
  Quantity : Z;
  InvoiceDate : DateCell;
  Price : Num;
  Customer_ID : Num;
  Country : option string;
  TotalPrice : option Num;
  InvoiceYear : option Z;
  InvoiceMonth : option Z;
  YearMonth : option (Z * Z);
  InvoiceWeek : option Z;
  InvoiceDay : option string
}.

(** A frame: the rows in order, each under its index label. *)
Definition DataFrame : Type := list (Z * Row).

Definition index (df : DataFrame) : list Z := map fst df.
Definition rows (df : DataFrame) : list Row := map snd df.

(** Column assignment, one setter per assigned column. *)
Definition set_Description (v : option string) (r : Row) : Row :=
  mkRow (InvoiceNo r) (StockCode r) v (Quantity r) (InvoiceDate r)
        (Price r) (Customer_ID r) (Country r) (TotalPrice r)
        (InvoiceYear r) (InvoiceMonth r) (YearMonth r) (InvoiceWeek r)
        (InvoiceDay r).

Definition set_InvoiceDate (v : DateCell) (r : Row) : Row :=
  mkRow (InvoiceNo r) (StockCode r) (Description r) (Quantity r) v
        (Price r) (Customer_ID r) (Country r) (TotalPrice r)
        (InvoiceYear r) (InvoiceMonth r) (YearMonth r) (InvoiceWeek r)
        (InvoiceDay r).

Definition set_Customer_ID (v : Num) (r : Row) : Row :=
  mkRow (InvoiceNo r) (StockCode r) (Description r) (Quantity r)
        (InvoiceDate r) (Price r) v (Country r) (TotalPrice r)
        (InvoiceYear r) (InvoiceMonth r) (YearMonth r) (InvoiceWeek r)
        (InvoiceDay r).

Definition set_TotalPrice (v : option Num) (r : Row) : Row :=
  mkRow (InvoiceNo r) (StockCode r) (Description r) (Quantity r)
        (InvoiceDate r) (Price r) (Customer_ID r) (Country r) v
        (InvoiceYear r) (InvoiceMonth r) (YearMonth r) (InvoiceWeek r)
        (InvoiceDay r).

Definition set_InvoiceYear (v : option Z) (r : Row) : Row :=
  mkRow (InvoiceNo r) (StockCode r) (Description r) (Quantity r)
        (InvoiceDate r) (Price r) (Customer_ID r) (Country r)
        (TotalPrice r) v (InvoiceMonth r) (YearMonth r) (InvoiceWeek r)
        (InvoiceDay r).

Definition set_InvoiceMonth (v : option Z) (r : Row) : Row :=
  mkRow (InvoiceNo r) (StockCode r) (Description r) (Quantity r)
        (InvoiceDate r) (Price r) (Customer_ID r) (Country r)
        (TotalPrice r) (InvoiceYear r) v (YearMonth r) (InvoiceWeek r)
        (InvoiceDay r).

Definition set_YearMonth (v : option (Z * Z)) (r : Row) : Row :=
  mkRow (InvoiceNo r) (StockCode r) (Description r) (Quantity r)
        (InvoiceDate r) (Price r) (Customer_ID r) (Country r)
        (TotalPrice r) (InvoiceYear r) (InvoiceMonth r) v (InvoiceWeek r)
        (InvoiceDay r).

Definition set_InvoiceWeek (v : option Z) (r : Row) : Row :=
  mkRow (InvoiceNo r) (StockCode r) (Description r) (Quantity r)
        (InvoiceDate r) (Price r) (Customer_ID r) (Country r)
        (TotalPrice r) (InvoiceYear r) (InvoiceMonth r) (YearMonth r) v
        (InvoiceDay r).

Definition set_InvoiceDay (v : option string) (r : Row) : Row :=
  mkRow (InvoiceNo r) (StockCode r) (Description r) (Quantity r)
        (InvoiceDate r) (Price r) (Customer_ID r) (Country r)
        (TotalPrice r) (InvoiceYear r) (InvoiceMonth r) (YearMonth r)
        (InvoiceWeek r) v.

(** [isna] on the cells [clean] tests. *)
Definition isna_text (c : option string) : bool :=
  match c with None => true | Some _ => false end.

Definition isna_num (c : Num) : bool :=
  match c with NInt _ => false | NFloat x => isnan x end.

(** The comparison [> 0] on one cell of a numeric column. *)
Definition gt_zero (c : Num) : bool :=
  match c with NInt z => 0 <? z | NFloat x => ltb zero x end.

(** The exceptions that leave [clean]. *)
Inductive Error : Type :=
| ParserError            (* [to_datetime]: a value is not a date *)
| IntCastingNaNError.    (* [astype(int)]: a value is not finite *)

Inductive result (A : Type) : Type :=
| Ok (a : A)
| Raise (e : Error).
Arguments Ok {A} a.
Arguments Raise {A} e.

Definition bind {A B} (m : result A) (k : A -> result B) : result B :=
  match m with
  | Ok a => k a
  | Raise e => Raise e
  end.

Definition rmap {A B} (f : A -> B) (m : result A) : result B :=
  bind m (fun a => Ok (f a)).

(** A column operation that converts every cell: the first cell that
    fails raises, and nothing is returned. *)
Fixpoint mapM {A B} (f : A -> result B) (l : list A) : result (list B) :=
  match l with
  | [] => Ok []
  | a :: l' =>
      bind (f a) (fun b => bind (mapM f l') (fun bs => Ok (b :: bs)))
  end.

(** Apply a row operation under every index label. *)
Definition on_rows (f : Row -> Row) (df : DataFrame) : DataFrame :=
  map (fun ir => (fst ir, f (snd ir))) df.

Definition try_rows (f : Row -> result Row) (df : DataFrame)
  : result DataFrame :=
  mapM (fun ir => bind (f (snd ir)) (fun r => Ok (fst ir, r))) df.

(** Boolean-mask selection [df[mask]]. *)
Definition select (keep : Row -> bool) (df : DataFrame) : DataFrame :=
  filter (fun ir => keep (snd ir)) df.

(** [reset_index(drop=True)]: labels 0, 1, 2, ... in row order. *)
Fixpoint number_from (i : Z) (l : list Row) : DataFrame :=
  match l with
  | [] => []
  | r :: l' => (i, r) :: number_from (i + 1) l'
  end.

Definition reset_index (df : DataFrame) : DataFrame :=
  number_from 0 (rows df).

(** Two computations that succeed together, or fail with the same
    error. *)
Definition same_failure {A B} (m : result A) (m' : result B) : Prop :=
  match m, m' with
  | Ok _, Ok _ => True
  | Raise e, Raise e' => e = e'
  | _, _ => False
  end.

End Frame.

Notation "x <- m ;; k" := (Frame.bind m (fun x => k))
  (at level 61, m at next level, right associativity).

(* ================================================================= *)
(** ** [data_prep.clean] *)

Module Prep.

Import Float64 Frame.

(** Field accessors of the [.dt] namespace on one cell; [NaT] has no
    fields.  [clean] reads them only after [to_datetime], when no cell
    is text any more. *)
Definition dt_field {A} (f : Z -> A) (c : DateCell) : option A :=
  match c with
  | DateTime (Timestamp ns) => Some (f ns)
  | _ => None
  end.

Definition dt_year : DateCell -> option Z := dt_field Calendar.year_of.
Definition dt_month : DateCell -> option Z := dt_field Calendar.month_of.
Definition dt_to_period_M : DateCell -> option (Z * Z) :=
  dt_field (fun ns => (Calendar.year_of ns, Calendar.month_of ns)).
Definition dt_isocalendar_week : DateCell -> option Z :=
  dt_field Calendar.week_of.
Definition dt_day_name : DateCell -> option string :=
  dt_field Calendar.day_name_of.

(** [Series.astype(int)] on one cell of a numeric [Customer ID]
    column. *)
Definition astype_int (c : Num) : result Num :=
  match c with
  | NInt z => Ok (NInt z)
  | NFloat x =>
      if isfinite x then Ok (NInt (to_int64 x))
      else Raise IntCastingNaNError
  end.

(** [Quantity * Price] with a [float64] price: the integer is
    converted to [float64], the product is the binary64 product. *)
Definition mul_int_float (q : Z) (p : float64) : float64 :=
  mul (of_int q) p.

(** [Quantity * Price] on one row: the [int64] quantity times a cell
    of the price column.  Two [int64] columns multiply in [int64]. *)
Definition mul_int_num (q : Z) (p : Num) : Num :=
  match p with
  | NInt z => NInt (wrap_int64 (q * z))
  | NFloat x => NFloat (mul_int_float q x)
  end.

Section WithParser.

(** The text-to-timestamp parser of [pandas.to_datetime]: [None] when
    the text is not a date, [Some NaT] for the texts pandas reads as
    missing.  From pandas 2 on, [to_datetime] settles on one format for
    a column, that of its first value, and reads every cell with it:
    [parse_datetime] is the parser of the one column at hand, and no
    statement below carries it from one frame to another with other
    date texts. *)
Variable parse_datetime : string -> option datetime.

Definition to_datetime (c : DateCell) : result DateCell :=
  match c with
  | DateTime t => Ok (DateTime t)
  | DateStr s =>
      match parse_datetime s with
      | Some t => Ok (DateTime t)
      | None => Raise ParserError
      end
  end.

Definition clean (df : DataFrame) : result DataFrame :=
  (* df = df.dropna(subset=["Description"]) *)
  let df := select (fun r => negb (isna_text (Description r))) df in
  (* df["InvoiceDate"] = pd.to_datetime(df["InvoiceDate"]) *)
  df <- try_rows (fun r => d <- to_datetime (InvoiceDate r) ;;
                           Ok (set_InvoiceDate d r)) df ;;
  (* df = df[df["Quantity"] > 0] *)
  let df := select (fun r => 0 <? Quantity r) df in
  (* df = df[df["Price"] > 0] *)
  let df := select (fun r => gt_zero (Price r)) df in
  (* df = df.dropna(subset=["Customer ID"]) *)
  let df := select (fun r => negb (isna_num (Customer_ID r))) df in
  (* df["Customer ID"] = df["Customer ID"].astype(int) *)
  df <- try_rows (fun r => c <- astype_int (Customer_ID r) ;;
                           Ok (set_Customer_ID c r)) df ;;
  (* df["TotalPrice"] = df["Quantity"] * df["Price"] *)
  let df := on_rows (fun r =>
    set_TotalPrice (Some (mul_int_num (Quantity r) (Price r))) r) df in
  (* df["InvoiceYear"] = df["InvoiceDate"].dt.year *)
  let df := on_rows (fun r =>
    set_InvoiceYear (dt_year (InvoiceDate r)) r) df in
  (* df["InvoiceMonth"] = df["InvoiceDate"].dt.month *)
  let df := on_rows (fun r =>
    set_InvoiceMonth (dt_month (InvoiceDate r)) r) df in
  (* df["YearMonth"] = df["InvoiceDate"].dt.to_period("M") *)
  let df := on_rows (fun r =>
    set_YearMonth (dt_to_period_M (InvoiceDate r)) r) df in
  (* df["InvoiceWeek"] = df["InvoiceDate"].dt.isocalendar().week *)
  let df := on_rows (fun r =>
    set_InvoiceWeek (dt_isocalendar_week (InvoiceDate r)) r) df in
  (* df["InvoiceDay"] = df["InvoiceDate"].dt.day_name() *)
  let df := on_rows (fun r =>
    set_InvoiceDay (dt_day_name (InvoiceDate r)) r) df in
  (* df["Description"] = df["Description"].str.strip() *)
  let df := on_rows (fun r =>
    set_Description (option_map Text.strip (Description r)) r) df in
  (* df = df.reset_index(drop=True) *)
  Ok (reset_index df).


(** *** The same pipeline, row by row

    The definitions below restate what [clean] does to one record;
    the theorems relate them to [clean]. *)

Definition has_Description (r : Row) : bool :=
  negb (isna_text (Description r)).

(** The four filters of [clean] as one predicate on an input row. *)
Definition retained (r : Row) : bool :=
  has_Description r && (0 <? Quantity r) && gt_zero (Price r)
  && negb (isna_num (Customer_ID r)).

(** The derived columns and the tidied text of a row whose date and
    customer identifier are already converted. *)
Definition finish (r : Row) : Row :=
  mkRow (InvoiceNo r) (StockCode r)
        (option_map Text.strip (Description r))
        (Quantity r) (InvoiceDate r) (Price r) (Customer_ID r)
        (Country r)
        (Some (mul_int_num (Quantity r) (Price r)))
        (dt_year (InvoiceDate r))
        (dt_month (InvoiceDate r))
        (dt_to_period_M (InvoiceDate r))
        (dt_isocalendar_week (InvoiceDate r))
        (dt_day_name (InvoiceDate r)).

(** The output record of one retained input record. *)
Definition clean_row (r : Row) : result Row :=
  d <- to_datetime (InvoiceDate r) ;;
  c <- astype_int (Customer_ID r) ;;
  Ok (finish (set_Customer_ID c (set_InvoiceDate d r))).

(** A record that [clean] leaves as it is. *)
Definition is_clean (r : Row) : Prop :=
  retained r = true /\ clean_row r = Ok r.

End WithParser.

(** The labels [0, 1, ..., n-1]. *)
Definition range (n : nat) : list Z := map Z.of_nat (seq 0 n).

End Prep.

(* ================================================================= *)
(** ** A parser for the date format of the data file

    [clean] is verified for any text-to-timestamp parser.  The concrete
    runs below use this one, which reads the ISO 8601 forms
    [YYYY-MM-DD], [YYYY-MM-DD HH:MM] and [YYYY-MM-DD HH:MM:SS] and the
    texts pandas takes for a missing value. *)

Module IsoText.

Import Frame.
Local Open Scope string_scope.
Local Open Scope Z_scope.

Definition digit (c : ascii) : option Z :=
  let n := N_of_ascii c in
  if ((48 <=? n) && (n <=? 57))%N then Some (Z.of_N n - 48) else None.

Fixpoint number (s : string) (acc : Z) : option Z :=
  match s with
  | EmptyString => Some acc
  | String c s' =>
      match digit c with
      | Some d => number s' (10 * acc + d)
      | None => None
      end
  end.

Definition field (s : string) (start len : nat) : option Z :=
  number (substring start len s) 0.

Definition char_at (s : string) (i : nat) (c : ascii) : bool :=
  match get i s with
  | Some c' => Ascii.eqb c c'
  | None => false
  end.

Definition days_in_month (y m : Z) : Z :=
  if m =? 2 then (if Calendar.is_leapyear y then 29 else 28)
  else if (m =? 4) || (m =? 6) || (m =? 9) || (m =? 11) then 30
  else 31.

Definition parse_date (s : string) : option Z :=
  match field s 0 4, field s 5 2, field s 8 2 with
  | Some y, Some m, Some d =>
      if char_at s 4 "-" && char_at s 7 "-"
         && (1 <=? m) && (m <=? 12) && (1 <=? d) && (d <=? days_in_month y m)
      then Some (Calendar.days_from_civil y m d) else None
  | _, _, _ => None
  end.

Definition parse_hh_mm (s : string) : option Z :=
  match field s 11 2, field s 14 2 with
  | Some hh, Some mm =>
      if (char_at s 10 " " || char_at s 10 "T") && char_at s 13 ":"
         && (hh <? 24) && (mm <? 60)
      then Some (hh * 3600 + mm * 60) else None
  | _, _ => None
  end.

Definition parse_ss (s : string) : option Z :=
  match field s 17 2 with
  | Some ss => if char_at s 16 ":" && (ss <? 60) then Some ss else None
  | None => None
  end.

Definition nat_strings : list string :=
  ["NaT"; "nat"; "NAT"; "nan"; "NaN"; "NAN"; ""].

Definition stamp (days secs : Z) : datetime :=
  Timestamp ((days * 86400 + secs) * 1000000000).

Definition parse (s : string) : option datetime :=
  if existsb (String.eqb s) nat_strings then Some NaT
  else
    let n := String.length s in
    if Nat.eqb n 10 then
      match parse_date s with
      | Some d => Some (stamp d 0)
      | None => None
      end
    else if Nat.eqb n 16 then
      match parse_date s, parse_hh_mm s with
      | Some d, Some t => Some (stamp d t)
      | _, _ => None
      end
    else if Nat.eqb n 19 then
      match parse_date s, parse_hh_mm s, parse_ss s with
      | Some d, Some t, Some ss => Some (stamp d (t + ss))
      | _, _, _ => None
      end
    else None.

End IsoText.

(* ================================================================= *)
(** ** Sample frames *)

Module Samples.

Import Float64 Frame.
Local Open Scope string_scope.

(** A record as [load_raw] returns it: no derived column yet.  The
    price column is [float64]. *)
Definition raw (description : option string) (quantity : Z)
    (date : DateCell) (price : float64) (customer : Num) : Row :=
  mkRow (Some "536365") (Some "85123A") description quantity date
        (NFloat price) customer (Some "United Kingdom")
        None None None None None None.

Definition mug : Row :=
  raw (Some " Mug ") 3 (DateStr "2010-12-01 08:26") (decimal 250 2)
      (NFloat (decimal 178500 1)).

Definition mug_cleaned : Row :=
  mkRow (Some "536365") (Some "85123A") (Some "Mug") 3
        (DateTime (Timestamp (Calendar.make_ns 2010 12 1 8 26 0)))
        (NFloat (decimal 250 2)) (NInt 17850) (Some "United Kingdom")
        (Some (NFloat (decimal 750 2))) (Some 2010) (Some 12) (Some (2010, 12))
        (Some 48) (Some "Wednesday").

(** One good record. *)
Definition frame_mug : DataFrame := [(0, mug)].
Definition frame_mug_cleaned : DataFrame := [(0, mug_cleaned)].

(** A good record, then a record without description whose date is
    not a date. *)
Definition no_description_bad_date : Row :=
  raw None 1 (DateStr "not a date") (decimal 100 2) (NFloat (of_int 12345)).

Definition frame_bad_date_dropped : DataFrame :=
  [(0, mug); (1, no_description_bad_date)].

(** A record whose description is one blank. *)
Definition blank : Row :=
  raw (Some " ") 1 (DateStr "2010-12-01 08:26") (decimal 100 2)
      (NFloat (of_int 12345)).

Definition blank_cleaned : Row :=
  mkRow (Some "536365") (Some "85123A") (Some "") 1
        (DateTime (Timestamp (Calendar.make_ns 2010 12 1 8 26 0)))
        (NFloat (decimal 100 2)) (NInt 12345) (Some "United Kingdom")
        (Some (NFloat (decimal 100 2))) (Some 2010) (Some 12) (Some (2010, 12))
        (Some 48) (Some "Wednesday").

Definition frame_blank : DataFrame := [(0, blank)].

(** A good record, then a record whose date is missing. *)
Definition undated : Row :=
  raw (Some "Lamp") 2 (DateTime NaT) (decimal 100 2)
      (NFloat (of_int 12345)).

Definition undated_cleaned : Row :=
  mkRow (Some "536365") (Some "85123A") (Some "Lamp") 2 (DateTime NaT)
        (NFloat (decimal 100 2)) (NInt 12345) (Some "United Kingdom")
        (Some (NFloat (decimal 200 2))) None None None None None.

Definition frame_undated : DataFrame := [(0, mug); (1, undated)].

(** A customer identifier of [1e30], far beyond 64 bits. *)
Definition huge_customer : Row :=
  raw (Some "Lamp") 2 (DateStr "2010-12-01 08:26") (decimal 100 2)
      (NFloat (of_int (10 ^ 30))).

Definition huge_customer_cleaned : Row :=
  mkRow (Some "536365") (Some "85123A") (Some "Lamp") 2
        (DateTime (Timestamp (Calendar.make_ns 2010 12 1 8 26 0)))
        (NFloat (decimal 100 2)) (NInt (-9223372036854775808))
        (Some "United Kingdom")
        (Some (NFloat (decimal 200 2))) (Some 2010) (Some 12) (Some (2010, 12))
        (Some 48) (Some "Wednesday").

Definition frame_huge_customer : DataFrame := [(0, huge_customer)].

(** A customer identifier with a fraction, [17850.7], and a negative
    one, [-3.7]. *)
Definition fraction_customer : Row :=
  raw (Some "Lamp") 2 (DateStr "2010-12-01 08:26") (decimal 100 2)
      (NFloat (decimal 178507 1)).

Definition negative_customer : Row :=
  raw (Some "Lamp") 2 (DateStr "2010-12-01 08:26") (decimal 100 2)
      (NFloat (decimal (-37) 1)).

Definition frame_fraction_customer : DataFrame :=
  [(0, fraction_customer); (1, negative_customer)].






(** A price column of whole numbers is [int64]: 3037000500 items at
    3037000500 each. *)
Definition whole_price : Row :=
  mkRow (Some "536365") (Some "85123A") (Some "Lamp") 3037000500
        (DateStr "2010-12-01 08:26") (NInt 3037000500)
        (NFloat (of_int 12345)) (Some "United Kingdom")
        None None None None None None.

Definition whole_price_cleaned : Row :=
  mkRow (Some "536365") (Some "85123A") (Some "Lamp") 3037000500
        (DateTime (Timestamp (Calendar.make_ns 2010 12 1 8 26 0)))
        (NInt 3037000500) (NInt 12345) (Some "United Kingdom")
        (Some (NInt (-9223372036709301616)))
        (Some 2010) (Some 12) (Some (2010, 12))
        (Some 48) (Some "Wednesday").

Definition frame_whole_price : DataFrame := [(0, whole_price)].

End Samples.

(* ================================================================= *)
(** ** Relations between frames *)

Module Views.

Import Float64 Frame Prep.

(** Two records with the same eight raw columns. *)
Definition same_raw (r r' : Row) : Prop :=
  InvoiceNo r = InvoiceNo r' /\ StockCode r = StockCode r'
  /\ Description r = Description r' /\ Quantity r = Quantity r'
  /\ InvoiceDate r = InvoiceDate r' /\ Price r = Price r'
  /\ Customer_ID r = Customer_ID r' /\ Country r = Country r'.

(** The five columns derived from [InvoiceDate]. *)
Definition date_columns (r : Row)
  : option Z * option Z * option (Z * Z) * option Z * option string :=
  (InvoiceYear r, InvoiceMonth r, YearMonth r, InvoiceWeek r, InvoiceDay r).

End Views.

(* ================================================================= *)
(** ** [repo_root], [load_raw], [save_clean] and [main]

    The file system, the CSV reader and writer of pandas and the
    argument parser are outside the program: they are parameters of the
    section below, and the four functions are written over them as
    they stand in the source. *)

Module Script.

Import Frame.
Local Open Scope string_scope.

(** A path, as its components from the root. *)
Definition Path : Type := list string.

(** What can end a run: an exception of [clean], the [IndexError] of
    [parents[1]], or an exception (or exit) of a library call, by
    name. *)
Inductive Failure : Type :=
| CleanFailed (e : Error)
| IndexError
| External (name : string).

Inductive outcome (A : Type) : Type :=
| Done (a : A)
| Failed (e : Failure).
Arguments Done {A} a.
Arguments Failed {A} e.

(** [Path.parents[n]]: the path without its last [n + 1] components;
    out of range when the path has no more than [n] components. *)
Definition parents (p : Path) (n : nat) : outcome Path :=
  if Nat.ltb n (List.length p)
  then Done (firstn (List.length p - S n) p)
  else Failed IndexError.

(** [Path.parent] *)
Definition parent (p : Path) : Path := removelast p.

(** [p / a / b] *)
Definition join (p : Path) (names : list string) : Path :=
  (p ++ names)%list.

Section WithSystem.

(** The file system. *)
Variable World : Type.

(** [Path(__file__).resolve()] *)
Variable script : Path.

(** [pd.read_csv(path, encoding="ISO-8859-1")]; it reads the world. *)
Variable read_csv : Path -> World -> outcome DataFrame.

(** [path.mkdir(parents=True, exist_ok=True)] and
    [df.to_csv(path, index=False)]; each leaves a world behind, also
    when it fails. *)
Variable mkdir : Path -> World -> outcome unit * World.
Variable to_csv : DataFrame -> Path -> World -> outcome unit * World.

(** [parser.parse_args(argv)] for the parser of [main], given the two
    defaults: [(args.input, args.output)], or the exit of the parser,
    and the lines the parser printed (its help text). *)
Variable parse_args :
  Path -> Path -> list string -> outcome (Path * Path) * list string.

(** [str(path)] *)
Variable path_str : Path -> string.

(** The text-to-timestamp parser of [pandas.to_datetime]. *)
Variable parse_datetime : string -> option datetime.

(** The state of a run: the file system and what was printed. *)
Record State : Type := mkState {
  fs : World;
  stdout : list string
}.

(** Computations that change the state and may fail; a failure keeps
    the state reached. *)
Definition M (A : Type) : Type := State -> outcome A * State.

Definition ret {A} (a : A) : M A := fun st => (Done a, st).

Definition raise {A} (e : Failure) : M A := fun st => (Failed e, st).

Definition seq {A B} (m : M A) (k : A -> M B) : M B :=
  fun st =>
    match m st with
    | (Done a, st') => k a st'
    | (Failed e, st') => (Failed e, st')
    end.

Definition lift {A} (o : outcome A) : M A := fun st => (o, st).

Definition reading {A} (f : World -> outcome A) : M A :=
  fun st => (f (fs st), st).

Definition writing (f : World -> outcome unit * World) : M unit :=
  fun st => let '(o, w) := f (fs st) in (o, mkState w (stdout st)).

Definition printing {A} (r : outcome A * list string) : M A :=
  fun st => (fst r, mkState (fs st) (stdout st ++ snd r)%list).

Definition print (line : string) : M unit :=
  fun st => (Done tt, mkState (fs st) (stdout st ++ [line])%list).

Definition of_clean (r : result DataFrame) : M DataFrame :=
  match r with
  | Ok df => ret df
  | Raise e => raise (CleanFailed e)
  end.

(** [repo_root] *)
Definition repo_root : outcome Path := parents script 1.

(** [load_raw] *)
Definition load_raw (input_path : option Path) : M DataFrame :=
  seq (match input_path with
       | None =>
           seq (lift repo_root) (fun root =>
           ret (join root ["data"; "online_retail_raw.csv"]))
       | Some p => ret p
       end) (fun input_path =>
  reading (read_csv input_path)).

(** [save_clean] *)
Definition save_clean (df : DataFrame) (output_path : option Path) : M Path :=
  seq (match output_path with
       | None =>
           seq (lift repo_root) (fun root =>
           ret (join root ["data"; "online_retail_clean.csv"]))
       | Some p => ret p
       end) (fun output_path =>
  seq (writing (mkdir (parent output_path))) (fun _ =>
  seq (writing (to_csv df output_path)) (fun _ =>
  ret output_path))).

(** [main] *)
Definition main (argv : list string) : M unit :=
  seq (lift repo_root) (fun root_i =>
  seq (lift repo_root) (fun root_o =>
  seq (printing (parse_args (join root_i ["data"; "online_retail_raw.csv"])
                            (join root_o ["data"; "online_retail_clean.csv"])
                            argv)) (fun args =>
  seq (load_raw (Some (fst args))) (fun df =>
  seq (of_clean (Prep.clean parse_datetime df)) (fun df =>
  seq (save_clean df (Some (snd args))) (fun out =>
  print ("Wrote cleaned data to: " ++ path_str out))))))).

End WithSystem.

End Script.

(* ================================================================= *)
(** ** A small system for concrete runs of [main]

    Files are a list of paths with their text; the reader knows one
    file, the writer records the path and the number of rows written. *)

Module DemoSystem.

Import Frame Script.
Local Open Scope string_scope.

Definition World : Type := list (Path * string).

Definition script : Path := ["home"; "shop"; "src"; "data_prep.py"].

Definition path_eqb (p q : Path) : bool :=
  if list_eq_dec string_dec p q then true else false.

Definition exists_file (p : Path) (w : World) : bool :=
  existsb (fun f => path_eqb (fst f) p) w.

Definition read_csv (p : Path) (w : World) : outcome DataFrame :=
  if exists_file p w then Done Samples.frame_mug
  else Failed (External "FileNotFoundError").

Definition mkdir (p : Path) (w : World) : outcome unit * World :=
  (Done tt, w).

Definition to_csv (df : DataFrame) (p : Path) (w : World)
  : outcome unit * World :=
  (Done tt, (p, "rows") :: w).

Definition parse_args (input output : Path) (argv : list string)
  : outcome (Path * Path) * list string :=
  match argv with
  | [] => (Done (input, output), [])
  | _ => (Failed (External "SystemExit"), ["usage: data_prep.py"])
  end.

Definition path_str (p : Path) : string := "/" ++ String.concat "/" p.

Definition raw_file : Path :=
  ["home"; "shop"; "data"; "online_retail_raw.csv"].

Definition clean_file : Path :=
  ["home"; "shop"; "data"; "online_retail_clean.csv"].

Definition before : State World := mkState World [(raw_file, "raw")] [].

Definition after : State World :=
  mkState World [(clean_file, "rows"); (raw_file, "raw")]
          ["Wrote cleaned data to: /home/shop/data/online_retail_clean.csv"].

Definition run (argv : list string) : M World unit :=
  main World script read_csv mkdir to_csv parse_args path_str IsoText.parse
       argv.

End DemoSystem.

(* ================================================================= *)
(** ** The ISO 8601 week number, as the standard words it *)

Module IsoWeek.
Import Calendar.

(** Day count of the first of January. *)
Definition jan1 (y : Z) : Z := days_from_civil y 1 1.

Definition leap_day (y : Z) : Z := if is_leapyear y then 1 else 0.

Definition year_of_days (days : Z) : Z := fst (fst (civil_from_days days)).

(** The Thursday of the Monday-to-Sunday week of a day. *)
Definition thursday_of (days : Z) : Z := days - dayofweek days + 3.

(** ISO 8601: a week belongs to the year of its Thursday, and the weeks
    of a year are counted from the week of its first Thursday. *)
Definition iso_week (days : Z) : Z :=
  let thu := thursday_of days in
  (thu - jan1 (year_of_days thu)) / 7 + 1.

End IsoWeek.

(* ================================================================= *)
(** * Properties *)

(** ** Binary64 *)

Module Float64Facts.

Import Float64.

(** The shift of [trunc] is truncation toward zero of the float's
    exact value. *)
Theorem trunc_toward_zero x : trunc x = truncate_toward_zero x.
Proof.
  unfold truncate_toward_zero.
  destruct x as [s|s| |s m e]; try reflexivity.
  unfold trunc, float_num, float_den.
  destruct (Z.le_gt_cases 0 e) as [He|He].
  - rewrite Z.max_l, Z.max_r by lia. rewrite Z.pow_0_r, Z.quot_1_r.
    rewrite Z.shiftl_mul_pow2 by assumption. reflexivity.
  - rewrite Z.max_r, Z.max_l by lia. rewrite Z.pow_0_r, Z.mul_1_r.
    replace e with (- (- e)) at 1 by lia.
    rewrite Z.shiftl_opp_r, Z.shiftr_div_pow2 by lia.
    assert (Hd : 0 < 2 ^ (- e)) by (apply Z.pow_pos_nonneg; lia).
    destruct s; unfold cond_Zopp.
    + rewrite Z.quot_opp_l by lia.
      rewrite Z.quot_div_nonneg by lia. reflexivity.
    + rewrite Z.quot_div_nonneg by lia. reflexivity.
Qed.

(** *** Rounding never makes a NaN, nor a zero out of an integer *)


Lemma shr_1_m mrs : 0 <= shr_m mrs -> shr_m (shr_1 mrs) = shr_m mrs / 2.
Proof.
  destruct mrs as [m r s]. simpl. intros Hm.
  rewrite <- Z.div2_div.
  destruct m as [|[p|p|]|p]; try reflexivity; lia.
Qed.

Lemma iter_shr_1_m p mrs :
  0 <= shr_m mrs ->
  shr_m (iter_pos shr_1 p mrs) = shr_m mrs / 2 ^ Zpos p.
Proof.
  revert mrs. induction p as [p IH|p IH|]; intros mrs Hm; simpl iter_pos.
  - assert (H1 : 0 <= shr_m (shr_1 mrs))
      by (rewrite shr_1_m by assumption; apply Z.div_pos; lia).
    assert (H2 : 0 <= shr_m (iter_pos shr_1 p (shr_1 mrs)))
      by (rewrite IH by assumption; apply Z.div_pos;
          [assumption | apply Z.pow_pos_nonneg; lia]).
    rewrite IH, IH, shr_1_m by assumption.
    rewrite !Z.div_div by (try apply Z.pow_pos_nonneg; lia).
    f_equal. rewrite <- Z.pow_add_r, <- Z.pow_succ_r by lia.
    f_equal. lia.
  - assert (H2 : 0 <= shr_m (iter_pos shr_1 p mrs))
      by (rewrite IH by assumption; apply Z.div_pos;
          [assumption | apply Z.pow_pos_nonneg; lia]).
    rewrite IH, IH by assumption.
    rewrite !Z.div_div by (try apply Z.pow_pos_nonneg; lia).
    f_equal. rewrite <- Z.pow_add_r by lia. f_equal. lia.
  - rewrite shr_1_m by assumption. reflexivity.
Qed.

Lemma shr_m_record_of_loc m l : shr_m (shr_record_of_loc m l) = m.
Proof. destruct l as [|[| |]]; reflexivity. Qed.

(** The mantissa after [shr] is the mantissa divided by [2^n]. *)
Lemma shr_m_shr mrs e n :
  0 <= shr_m mrs ->
  shr_m (fst (shr mrs e n)) = shr_m mrs / 2 ^ Z.max n 0.
Proof.
  intros Hm. destruct n as [|p|p]; simpl shr; cbn [fst].
  - simpl. rewrite Z.div_1_r. reflexivity.
  - rewrite iter_shr_1_m by assumption. rewrite Z.max_l by lia.
    reflexivity.
  - rewrite Z.max_r by lia. simpl. rewrite Z.div_1_r. reflexivity.
Qed.


Lemma round_nearest_even_ge m l : m <= round_nearest_even m l.
Proof.
  destruct l as [|[| |]]; simpl; try lia. destruct (Z.even m); lia.
Qed.

Lemma binary_round_aux_not_nan sx mx ex lx :
  0 <= mx -> isnan (binary_round_aux prec emax sx mx ex lx) = false.
Proof.
  intros Hm. unfold binary_round_aux, shr_fexp.
  destruct (shr (shr_record_of_loc mx lx) ex _) as [mrs' e'] eqn:E1.
  assert (H1 : 0 <= shr_m mrs').
  { change mrs' with (fst (mrs', e')). rewrite <- E1.
    rewrite shr_m_shr by (rewrite shr_m_record_of_loc; assumption).
    rewrite shr_m_record_of_loc. apply Z.div_pos; [assumption|].
    apply Z.pow_pos_nonneg; lia. }
  pose proof (round_nearest_even_ge (shr_m mrs') (loc_of_shr_record mrs'))
    as H2.
  destruct (shr (shr_record_of_loc (round_nearest_even _ _) _) e' _)
    as [mrs'' e''] eqn:E2.
  assert (H3 : 0 <= shr_m mrs'').
  { change mrs'' with (fst (mrs'', e'')). rewrite <- E2.
    rewrite shr_m_shr by (rewrite shr_m_record_of_loc; lia).
    rewrite shr_m_record_of_loc. apply Z.div_pos; [lia|].
    apply Z.pow_pos_nonneg; lia. }
  destruct (shr_m mrs'') as [|p|p]; [reflexivity| |lia].
  destruct (_ <=? _); reflexivity.
Qed.

Lemma fexp_eq e : fexp prec emax e = Z.max (e - 53) (- 1074).
Proof. reflexivity. Qed.


Lemma digits2_pos_size p : digits2_pos p = Pos.size p.
Proof. induction p; simpl; congruence. Qed.

Lemma Zdigits2_log2 m : 0 < m -> Zdigits2 m = Z.log2 m + 1.
Proof.
  destruct m as [|p|p]; try lia. intros _. simpl Zdigits2.
  rewrite digits2_pos_size. destruct p; simpl; lia.
Qed.




Theorem mul_positive_not_nan x y :
  positive_float x -> positive_float y -> isnan (mul x y) = false.
Proof.
  destruct x as [s|[|]| |[|] mx ex]; simpl; try contradiction; intros _;
    destruct y as [s|[|]| |[|] my ey]; simpl; try contradiction; intros _;
    try reflexivity.
  apply binary_round_aux_not_nan. lia.
Qed.

Lemma eqb_refl x : isnan x = false -> eqb x x = true.
Proof.
  destruct x as [s|[|]| |[|] m e]; simpl; try discriminate; intros _;
    try reflexivity; unfold eqb, SFeqb, SFcompare;
    rewrite Z.compare_refl, Pos.compare_cont_refl;
    reflexivity.
Qed.

(** *** Wrapping into 64 bits *)



Lemma wrap_int64_fits z : in_int64 z = true -> wrap_int64 z = z.
Proof.
  unfold in_int64, min_int64, max_int64, wrap_int64. intros H.
  apply andb_true_iff in H. destruct H as [H1 H2].
  apply Z.leb_le in H1, H2. rewrite Z.mod_small by lia. lia.
Qed.

End Float64Facts.

(** ** More on binary64 rounding *)

Module Float64Magnitude.

Import Float64 Float64Facts.


Lemma Zpos_iter_xO m d : Zpos (Pos.iter xO m d) = Zpos m * 2 ^ Zpos d.
Proof.
  induction d as [|d IH] using Pos.peano_ind.
  - simpl. lia.
  - rewrite Pos.iter_succ, Pos2Z.inj_xO, IH, Pos2Z.inj_succ.
    rewrite Z.pow_succ_r by lia. lia.
Qed.




End Float64Magnitude.

(** ** Rounding to nearest *)

Module RoundingFacts.

Import Float64 Float64Facts Rounding.























End RoundingFacts.

(** ** Text *)

Module TextFacts.

Import Text.
Local Open Scope string_scope.

Lemma lstrip_first s : is_space_opt (first_char (lstrip s)) = false.
Proof.
  induction s as [|c s IH]; simpl; [reflexivity|].
  destruct (isspace c) eqn:E; [exact IH|]. simpl. exact E.
Qed.

Lemma lstrip_fixed s : is_space_opt (first_char s) = false -> lstrip s = s.
Proof.
  destruct s as [|c s]; simpl; [reflexivity|]. intros ->. reflexivity.
Qed.

Lemma rstrip_last s : is_space_opt (last_char (rstrip s)) = false.
Proof.
  induction s as [|c s IH]; simpl; [reflexivity|].
  destruct (rstrip s) as [|c' r] eqn:E.
  - destruct (isspace c) eqn:Ec; simpl; [reflexivity|exact Ec].
  - exact IH.
Qed.

Lemma rstrip_fixed s : is_space_opt (last_char s) = false -> rstrip s = s.
Proof.
  induction s as [|c s IH]; simpl; [reflexivity|].
  destruct s as [|c' s'].
  - simpl. intros ->. reflexivity.
  - intros H. rewrite (IH H). reflexivity.
Qed.

(** [rstrip] keeps a first character that is not white space. *)
Lemma rstrip_first s :
  is_space_opt (first_char s) = false ->
  is_space_opt (first_char (rstrip s)) = false.
Proof.
  destruct s as [|c s]; simpl; [reflexivity|]. intros H.
  destruct (rstrip s); [rewrite H|]; simpl; exact H.
Qed.

Theorem strip_trimmed s : trimmed (strip s) = true.
Proof.
  unfold trimmed, strip.
  rewrite rstrip_first by apply lstrip_first.
  rewrite rstrip_last. reflexivity.
Qed.

Lemma trimmed_strip s : trimmed s = true -> strip s = s.
Proof.
  unfold trimmed, strip. intros H.
  apply andb_true_iff in H. destruct H as [H1 H2].
  apply negb_true_iff in H1, H2.
  rewrite (lstrip_fixed _ H1). apply rstrip_fixed, H2.
Qed.

Theorem strip_idempotent s : strip (strip s) = strip s.
Proof. apply trimmed_strip, strip_trimmed. Qed.

Lemma all_space_lstrip s : all_space (lstrip s) = all_space s.
Proof.
  induction s as [|c s IH]; simpl; [reflexivity|].
  destruct (isspace c) eqn:E; simpl; [exact IH|]. rewrite E. reflexivity.
Qed.

Lemma rstrip_empty s : rstrip s = "" <-> all_space s = true.
Proof.
  induction s as [|c s IH]; simpl; [tauto|].
  destruct (rstrip s) as [|c' r].
  - destruct (isspace c); simpl.
    + tauto.
    + split; discriminate.
  - split; [discriminate|]. intros H.
    apply andb_true_iff in H. destruct H as [_ H].
    apply IH in H. discriminate.
Qed.

(** The stripped text is empty exactly for text made of white space. *)
Theorem strip_empty s : strip s = "" <-> all_space s = true.
Proof.
  unfold strip. rewrite rstrip_empty, all_space_lstrip. tauto.
Qed.

End TextFacts.

(** ** Calendar *)

Module CalendarFacts.

Import Calendar.

Lemma day_of_era_bounds z :
  0 <= z - z / 146097 * 146097 <= 146096.
Proof. Z.div_mod_to_equations. lia. Qed.

Lemma day_of_year_bounds doe :
  0 <= doe <= 146096 ->
  let yoe := (doe - doe / 1460 + doe / 36524 - doe / 146096) / 365 in
  0 <= doe - (365 * yoe + yoe / 4 - yoe / 100) <= 365.
Proof. intros H. cbv zeta. Z.div_mod_to_equations. lia. Qed.

Lemma month_of_doy_bounds doy :
  0 <= doy <= 365 ->
  let mp := (5 * doy + 2) / 153 in
  1 <= (if mp <? 10 then mp + 3 else mp - 9) <= 12
  /\ 1 <= doy - (153 * mp + 2) / 5 + 1 <= 31.
Proof.
  intros H. cbv zeta.
  destruct (Z.ltb_spec ((5 * doy + 2) / 153) 10);
    Z.div_mod_to_equations; lia.
Qed.

Theorem civil_from_days_bounds days :
  let '(_, m, d) := civil_from_days days in
  1 <= m <= 12 /\ 1 <= d <= 31.
Proof.
  unfold civil_from_days. cbv zeta.
  pose proof (day_of_era_bounds (days + 719468)) as Hdoe.
  pose proof (day_of_year_bounds _ Hdoe) as Hdoy. cbv zeta in Hdoy.
  exact (month_of_doy_bounds _ Hdoy).
Qed.

Lemma month_of_bounds ns : 1 <= month_of ns <= 12.
Proof.
  unfold month_of.
  pose proof (civil_from_days_bounds (days_of_ns ns)) as H.
  destruct (civil_from_days (days_of_ns ns)) as [[y m] d]. simpl. tauto.
Qed.

Lemma day_of_bounds ns : 1 <= day_of ns <= 31.
Proof.
  unfold day_of.
  pose proof (civil_from_days_bounds (days_of_ns ns)) as H.
  destruct (civil_from_days (days_of_ns ns)) as [[y m] d]. simpl. tauto.
Qed.

Lemma dayofweek_bounds days : 0 <= dayofweek days <= 6.
Proof. unfold dayofweek. Z.div_mod_to_equations. lia. Qed.

Lemma month_offset_bounds month :
  1 <= month <= 12 -> 0 <= month_offset month <= 334.
Proof.
  intros H. unfold month_offset.
  assert (Hm : month = 1 \/ month = 2 \/ month = 3 \/ month = 4
               \/ month = 5 \/ month = 6 \/ month = 7 \/ month = 8
               \/ month = 9 \/ month = 10 \/ month = 11 \/ month = 12)
    by lia.
  repeat (destruct Hm as [->|Hm]; [simpl; lia|]). subst; simpl; lia.
Qed.

Lemma get_day_of_year_bounds year month day :
  1 <= month <= 12 -> 1 <= day <= 31 ->
  1 <= get_day_of_year year month day <= 366.
Proof.
  intros Hm Hd. unfold get_day_of_year.
  pose proof (month_offset_bounds month Hm).
  destruct (is_leapyear year && (2 <? month)); lia.
Qed.

Theorem get_week_of_year_bounds year month day dow :
  1 <= month <= 12 -> 1 <= day <= 31 -> 0 <= dow <= 6 ->
  1 <= get_week_of_year year month day dow <= 53.
Proof.
  intros Hm Hd Hw. unfold get_week_of_year. cbv zeta.
  pose proof (get_day_of_year_bounds year month day Hm Hd) as Hdoy.
  set (doy := get_day_of_year year month day) in *.
  destruct (Z.ltb_spec (doy - 1 - dow + 3) 0).
  - destruct (_ || _); lia.
  - destruct (_ && _); [lia|]. Z.div_mod_to_equations. lia.
Qed.

Lemma week_of_bounds ns : 1 <= week_of ns <= 53.
Proof.
  unfold week_of. apply get_week_of_year_bounds.
  - apply month_of_bounds.
  - apply day_of_bounds.
  - apply dayofweek_bounds.
Qed.

Lemma day_name_of_full ns : In (day_name_of ns) DAYS_FULL.
Proof.
  unfold day_name_of. apply nth_In.
  pose proof (dayofweek_bounds (days_of_ns ns)). simpl. lia.
Qed.

End CalendarFacts.

(** ** The error monad and the frame operations *)

Module FrameFacts.

Import Frame.

Lemma mapM_Ok_Forall2 {A B} (f : A -> result B) l l' :
  mapM f l = Ok l' -> Forall2 (fun a b => f a = Ok b) l l'.
Proof.
  revert l'. induction l as [|a l IH]; simpl; intros l' H.
  - inversion H. constructor.
  - destruct (f a) as [b|e] eqn:Ea; simpl in H; [|discriminate].
    destruct (mapM f l) as [bs|e]; simpl in H; [|discriminate].
    inversion H; subst. constructor; auto.
Qed.

Lemma Forall2_mapM_Ok {A B} (f : A -> result B) l l' :
  Forall2 (fun a b => f a = Ok b) l l' -> mapM f l = Ok l'.
Proof.
  induction 1 as [|a b l l' Hab _ IH]; simpl; [reflexivity|].
  rewrite Hab, IH. reflexivity.
Qed.

(** [mapM] fails exactly when some element fails, with the error of
    the first one that does. *)
Lemma mapM_Raise_In {A B} (f : A -> result B) l e :
  mapM f l = Raise e -> exists a, In a l /\ f a = Raise e.
Proof.
  induction l as [|a l IH]; simpl; intros H; [discriminate|].
  destruct (f a) as [b|e'] eqn:Ea; simpl in H.
  - destruct (mapM f l) as [bs|e'']; simpl in H; [discriminate|].
    inversion H; subst. destruct IH as (x & Hx & Hfx); eauto.
  - inversion H; subst. eauto.
Qed.

Lemma mapM_all_Ok {A B} (f : A -> result B) l :
  (forall a, In a l -> exists b, f a = Ok b) -> exists l', mapM f l = Ok l'.
Proof.
  induction l as [|a l IH]; simpl; intros H; [eauto|].
  destruct (H a) as (b & Hb); auto. rewrite Hb. simpl.
  destruct IH as (l' & Hl'); [intros; apply H; auto|].
  rewrite Hl'. simpl. eauto.
Qed.

Lemma mapM_In_Raise {A B} (f : A -> result B) l a e :
  In a l -> f a = Raise e -> exists e', mapM f l = Raise e'.
Proof.
  intros Hin Hfa. destruct (mapM f l) as [l'|e'] eqn:E; [|eauto].
  exfalso. apply mapM_Ok_Forall2 in E.
  revert Hin. induction E as [|x y l l' Hxy _ IH]; simpl;
    [contradiction|].
  intros [->|Hin]; [congruence|auto].
Qed.

(** Two element operations that fail on the same elements with the
    same error make [mapM] fail alike. *)
Lemma mapM_same_failure {A B C} (f : A -> result B) (g : A -> result C) l :
  (forall a, same_failure (f a) (g a)) ->
  same_failure (mapM f l) (mapM g l).
Proof.
  intros H. induction l as [|a l IH]; simpl; [exact I|].
  specialize (H a). destruct (f a), (g a); simpl in *; try contradiction;
    [|assumption].
  destruct (mapM f l), (mapM g l); simpl in *; auto.
Qed.

Lemma rows_select keep df : rows (select keep df) = filter keep (rows df).
Proof.
  unfold rows, select. induction df as [|[i r] df IH]; simpl; [reflexivity|].
  destruct (keep r); simpl; rewrite IH; reflexivity.
Qed.

Lemma rows_on_rows f df : rows (on_rows f df) = map f (rows df).
Proof.
  unfold rows, on_rows. rewrite !map_map. reflexivity.
Qed.

Lemma rows_try_rows f df :
  rmap rows (try_rows f df) = mapM f (rows df).
Proof.
  unfold try_rows, rmap, rows.
  induction df as [|[i r] df IH]; simpl; [reflexivity|].
  destruct (f r) as [r'|e]; simpl; [|reflexivity].
  rewrite <- IH.
  destruct (mapM _ df); reflexivity.
Qed.

Lemma rows_number_from i l : rows (number_from i l) = l.
Proof.
  unfold rows. revert i. induction l as [|r l IH]; simpl; intros i;
    [reflexivity|]. rewrite IH. reflexivity.
Qed.

Lemma index_number_from i l :
  index (number_from i l) = map (fun k => i + Z.of_nat k) (seq 0 (List.length l)).
Proof.
  unfold index. revert i. induction l as [|r l IH]; simpl; intros i;
    [reflexivity|].
  rewrite IH, <- seq_shift, map_map. f_equal; [lia|].
  apply map_ext. intros k. lia.
Qed.

Lemma length_number_from i l : List.length (number_from i l) = List.length l.
Proof.
  revert i. induction l as [|r l IH]; simpl; intros i; auto.
Qed.

Lemma filter_all_true {A} (p : A -> bool) l :
  Forall (fun a => p a = true) l -> filter p l = l.
Proof.
  induction 1 as [|a l Ha _ IH]; simpl; [reflexivity|].
  rewrite Ha, IH. reflexivity.
Qed.

Lemma filter_and {A} (p q : A -> bool) l :
  filter q (filter p l) = filter (fun a => p a && q a) l.
Proof.
  induction l as [|a l IH]; simpl; [reflexivity|].
  destruct (p a); simpl; [destruct (q a)|]; rewrite IH; reflexivity.
Qed.

Lemma Forall2_In_r {A B} (R : A -> B -> Prop) l l' b :
  Forall2 R l l' -> In b l' -> exists a, In a l /\ R a b.
Proof.
  induction 1 as [|x y l l' Hxy _ IH]; simpl; [contradiction|].
  intros [->|Hin]; [eauto|].
  destruct (IH Hin) as (a & Ha & HR). eauto.
Qed.

End FrameFacts.

(* ================================================================= *)
(** ** [clean], row by row *)

Module PrepFacts.

Import Float64 Frame Prep FrameFacts.

Section WithParser.

Variable P : string -> option datetime.

Lemma to_datetime_Ok c d :
  to_datetime P c = Ok d -> exists t, d = DateTime t.
Proof.
  destruct c as [s|t]; simpl.
  - destruct (P s); intros H; inversion H; eauto.
  - intros H; inversion H; eauto.
Qed.

Lemma to_datetime_Raise c e :
  to_datetime P c = Raise e ->
  e = ParserError /\ exists s, c = DateStr s /\ P s = None.
Proof.
  destruct c as [s|t]; simpl; [|discriminate].
  destruct (P s) eqn:E; intros H; inversion H; eauto.
Qed.

Lemma retained_split l :
  filter (retained) l
  = filter (fun r => negb (isna_num (Customer_ID r)))
      (filter (fun r => gt_zero (Price r))
         (filter (fun r => 0 <? Quantity r)
            (filter has_Description l))).
Proof.
  rewrite !filter_and. apply filter_ext. intros r. unfold retained.
  rewrite !andb_assoc. reflexivity.
Qed.

(** The three filters that follow the date conversion do not look at
    the date, so they commute with it. *)
Lemma cast_after_dates l l1 :
  Forall2 (fun r r1 => (d <- to_datetime P (InvoiceDate r) ;;
                        Ok (set_InvoiceDate d r)) = Ok r1) l l1 ->
  rmap (map finish)
    (mapM (fun r => c <- astype_int (Customer_ID r) ;;
                    Ok (set_Customer_ID c r))
       (filter (fun r => negb (isna_num (Customer_ID r)))
          (filter (fun r => gt_zero (Price r))
             (filter (fun r => 0 <? Quantity r) l1))))
  = mapM (clean_row P)
      (filter (fun r => negb (isna_num (Customer_ID r)))
         (filter (fun r => gt_zero (Price r))
            (filter (fun r => 0 <? Quantity r) l))).
Proof.
  induction 1 as [|r r1 l l1 Hr _ IH]; [reflexivity|].
  destruct (to_datetime P (InvoiceDate r)) as [d|e] eqn:Ed;
    simpl in Hr; [|discriminate].
  inversion Hr; subst r1; clear Hr.
  cbn [filter set_InvoiceDate Quantity Price Customer_ID].
  destruct (0 <? Quantity r); [|exact IH].
  cbn [filter set_InvoiceDate Quantity Price Customer_ID].
  destruct (gt_zero (Price r)); [|exact IH].
  cbn [filter set_InvoiceDate Quantity Price Customer_ID].
  destruct (negb (isna_num (Customer_ID r))); [|exact IH].
  cbn [mapM]. rewrite <- IH. unfold clean_row at 1. rewrite Ed.
  cbn [set_InvoiceDate Customer_ID bind].
  destruct (astype_int (Customer_ID r)) as [c|e]; [|reflexivity].
  cbn [bind rmap].
  match goal with |- context [mapM ?f ?l] => destruct (mapM f l) end;
    reflexivity.
Qed.

(** [clean] in one equation: the dates of all records that have a
    description are converted first; then the retained records are
    cleaned one by one, in order, and numbered from 0. *)
Theorem clean_by_rows df :
  clean P df =
  (_ <- mapM (fun r => to_datetime P (InvoiceDate r))
             (filter has_Description (rows df)) ;;
   rs <- mapM (clean_row P) (filter (retained) (rows df)) ;;
   Ok (number_from 0 rs)).
Proof.
  unfold clean.
  match goal with |- context [try_rows ?f (select ?p df)] =>
    pose proof (rows_try_rows f (select p df)) as H1;
    pose proof (mapM_same_failure f
                  (fun r => to_datetime P (InvoiceDate r))
                  (rows (select p df))) as H2;
    destruct (try_rows f (select p df)) as [df1|e] eqn:E1
  end.
  - simpl in H1. symmetry in H1.
    rewrite rows_select in H1, H2. fold has_Description in H1, H2.
    rewrite H1 in H2.
    destruct (mapM (fun r => to_datetime P (InvoiceDate r)) _) as [ds|e];
      [|exfalso; apply H2; intros r;
        destruct (to_datetime P (InvoiceDate r)); simpl; auto].
    clear H2. cbn [bind].
    apply mapM_Ok_Forall2 in H1. apply cast_after_dates in H1.
    rewrite <- retained_split in H1.
    match goal with |- context [try_rows ?f ?d] =>
      pose proof (rows_try_rows f d) as H3;
      destruct (try_rows f d) as [df2|e] eqn:E2
    end.
    + simpl in H3. rewrite !rows_select in H3. rewrite <- H3 in H1.
      simpl in H1. rewrite <- H1. cbn [bind]. f_equal.
      unfold reset_index. rewrite !rows_on_rows, !map_map.
      reflexivity.
    + simpl in H3. rewrite !rows_select in H3. rewrite <- H3 in H1.
      simpl in H1. rewrite <- H1. reflexivity.
  - simpl in H1. rewrite rows_select in H1, H2.
    fold has_Description in H1, H2. rewrite <- H1 in H2.
    destruct (mapM (fun r => to_datetime P (InvoiceDate r)) _) as [ds|e'];
      simpl in H2.
    + exfalso. apply H2. intros r.
      destruct (to_datetime P (InvoiceDate r)); simpl; auto.
    + cbn [bind]. f_equal. apply H2. intros r.
      destruct (to_datetime P (InvoiceDate r)); simpl; auto.
Qed.

(** What [clean] returns when it returns. *)
Lemma clean_Ok_rows df out :
  clean P df = Ok out ->
  Forall2 (fun r0 r => clean_row P r0 = Ok r)
          (filter retained (rows df)) (rows out)
  /\ out = number_from 0 (rows out).
Proof.
  rewrite clean_by_rows. intros H.
  destruct (mapM (fun r => to_datetime P (InvoiceDate r)) _);
    [|discriminate].
  cbn [bind] in H.
  destruct (mapM (clean_row P) _) as [rs|e] eqn:E; [|discriminate].
  cbn [bind] in H. inversion H; subst out.
  rewrite rows_number_from. split; [|reflexivity].
  apply mapM_Ok_Forall2, E.
Qed.

Lemma clean_Ok_In df out r :
  clean P df = Ok out -> In r (rows out) ->
  exists r0, In r0 (rows df) /\ retained r0 = true
             /\ clean_row P r0 = Ok r.
Proof.
  intros H Hin. apply clean_Ok_rows in H. destruct H as [H _].
  destruct (Forall2_In_r _ _ _ _ H Hin) as (r0 & Hr0 & Hc).
  apply filter_In in Hr0. destruct Hr0. eauto.
Qed.

Lemma astype_int_Ok c c' :
  astype_int c = Ok c' -> exists z, c' = NInt z.
Proof.
  destruct c as [z|x]; simpl.
  - intros H; inversion H; eauto.
  - destruct (isfinite x); intros H; inversion H; eauto.
Qed.

(** The shape of a cleaned record. *)
Lemma clean_row_inv r0 r :
  clean_row P r0 = Ok r ->
  exists t z,
    to_datetime P (InvoiceDate r0) = Ok (DateTime t)
    /\ astype_int (Customer_ID r0) = Ok (NInt z)
    /\ r = finish (set_Customer_ID (NInt z)
                     (set_InvoiceDate (DateTime t) r0)).
Proof.
  unfold clean_row. intros H.
  destruct (to_datetime P (InvoiceDate r0)) as [d|e] eqn:Ed;
    [|discriminate].
  destruct (to_datetime_Ok _ _ Ed) as (t & ->).
  cbn [bind] in H.
  destruct (astype_int (Customer_ID r0)) as [c|e] eqn:Ec;
    [|discriminate].
  destruct (astype_int_Ok _ _ Ec) as (z & ->).
  cbn [bind] in H. inversion H. eauto.
Qed.

Lemma retained_inv r :
  retained r = true ->
  (exists s, Description r = Some s) /\ 0 < Quantity r
  /\ gt_zero (Price r) = true /\ isna_num (Customer_ID r) = false.
Proof.
  unfold retained, has_Description. rewrite !andb_true_iff.
  intros [[[H1 H2] H3] H4].
  apply negb_true_iff in H4. apply Z.ltb_lt in H2.
  destruct (Description r) as [s|]; [|discriminate]. eauto.
Qed.

(** A cleaned record is a fixed point of the row pipeline. *)
Lemma clean_row_is_clean r0 r :
  retained r0 = true -> clean_row P r0 = Ok r -> is_clean P r.
Proof.
  intros Hret Hc.
  destruct (retained_inv _ Hret) as ((s & Hs) & Hq & Hp & Hn).
  destruct (clean_row_inv _ _ Hc) as (t & z & _ & _ & ->).
  split.
  - unfold retained, has_Description. simpl. rewrite Hs, Hp. simpl.
    apply Z.ltb_lt in Hq. rewrite Hq. reflexivity.
  - unfold clean_row. simpl. unfold finish. simpl.
    rewrite Hs. simpl. rewrite TextFacts.strip_idempotent. reflexivity.
Qed.

Lemma number_from_rows i df :
  index df = map (fun k => i + Z.of_nat k) (seq 0 (List.length df)) ->
  number_from i (rows df) = df.
Proof.
  unfold index, rows. revert i.
  induction df as [|[j r] df IH]; simpl; intros i H; [reflexivity|].
  inversion H as [[Hj Ht]]. f_equal; [f_equal; lia|].
  apply IH. rewrite Ht at 1. rewrite <- seq_shift, map_map.
  apply map_ext. intros k. lia.
Qed.

(** A frame of clean records numbered from 0 is returned as it is. *)
Lemma clean_fixed df :
  Forall (is_clean P) (rows df) ->
  df = number_from 0 (rows df) ->
  clean P df = Ok df.
Proof.
  intros Hall Hidx. rewrite clean_by_rows.
  destruct (mapM_all_Ok (fun r => to_datetime P (InvoiceDate r))
              (filter has_Description (rows df))) as (ds & Hds).
  { intros r Hr. apply filter_In in Hr. destruct Hr as [Hr _].
    rewrite Forall_forall in Hall. destruct (Hall r Hr) as [_ Hc].
    destruct (clean_row_inv _ _ Hc) as (t & z & Ht & _). eauto. }
  rewrite Hds. cbn [bind].
  rewrite filter_all_true
    by (eapply Forall_impl; [|exact Hall]; intros r [Hr _]; exact Hr).
  rewrite (Forall2_mapM_Ok (clean_row P) (rows df) (rows df)).
  - cbn [bind]. congruence.
  - clear Hidx Hds. induction Hall as [|r l [_ Hr] _ IH];
      constructor; assumption.
Qed.

(** When [clean] raises: the date conversion comes first, over all
    records that have a description; the cast comes second, over the
    retained records. *)
Lemma clean_Raise_ParserError df :
  clean P df = Raise ParserError <->
  exists r s, In r (rows df) /\ Description r <> None
              /\ InvoiceDate r = DateStr s /\ P s = None.
Proof.
  rewrite clean_by_rows. split.
  - intros H.
    destruct (mapM (fun r => to_datetime P (InvoiceDate r)) _)
      as [ds|e] eqn:E.
    + cbn [bind] in H.
      destruct (mapM (clean_row P) _) as [rs|e] eqn:E2;
        [discriminate|].
      cbn [bind] in H. inversion H; subst e.
      apply mapM_Raise_In in E2. destruct E2 as (r & Hr & Hc).
      unfold clean_row in Hc.
      assert (Hd : exists d, to_datetime P (InvoiceDate r) = Ok d).
      { apply mapM_Ok_Forall2 in E.
        apply filter_In in Hr. destruct Hr as [Hr Hret].
        destruct (to_datetime P (InvoiceDate r)) as [d|e] eqn:Ed;
          [eauto|].
        exfalso.
        assert (Hin : In r (filter has_Description (rows df))).
        { apply filter_In. split; [assumption|].
          unfold retained in Hret. rewrite !andb_true_iff in Hret.
          tauto. }
        clear - E Hin Ed.
        induction E as [|x y l l' Hxy _ IH]; simpl in Hin;
          [contradiction|].
        destruct Hin as [->|Hin]; [congruence|auto]. }
      destruct Hd as (d & Hd). rewrite Hd in Hc. cbn [bind] in Hc.
      destruct (Customer_ID r) as [z|x]; simpl in Hc; [discriminate|].
      destruct (isfinite x); discriminate.
    + cbn [bind] in H. apply mapM_Raise_In in E.
      destruct E as (r & Hr & He).
      apply filter_In in Hr. destruct Hr as [Hr Hd].
      apply to_datetime_Raise in He. destruct He as (_ & s & Hs & HP).
      exists r, s. repeat split; auto.
      unfold has_Description in Hd. destruct (Description r);
        [discriminate|discriminate Hd].
  - intros (r & s & Hr & Hd & Hs & HP).
    destruct (mapM_In_Raise (fun r => to_datetime P (InvoiceDate r))
                (filter has_Description (rows df)) r ParserError)
      as (e & He).
    + apply filter_In. split; [assumption|].
      unfold has_Description. destruct (Description r);
        [reflexivity|contradiction].
    + rewrite Hs. simpl. rewrite HP. reflexivity.
    + rewrite He. cbn [bind]. apply mapM_Raise_In in He.
      destruct He as (r' & _ & He).
      apply to_datetime_Raise in He. destruct He as (-> & _).
      reflexivity.
Qed.

End WithParser.

End PrepFacts.

(* ================================================================= *)
(** * The specification's statements about [clean] *)

Import Float64 Frame Prep.

(** C1.  Whenever [clean] succeeds, every record of its output has a
    non-null [Description], a non-null [Customer ID], [Quantity > 0]
    and [Price > 0]. *)
Theorem clean_output_invariants P df out :
  clean P df = Ok out ->
  forall r, In r (rows out) ->
    Description r <> None
    /\ isna_num (Customer_ID r) = false
    /\ 0 < Quantity r
    /\ gt_zero (Price r) = true.
Proof.
  intros H r Hr.
  destruct (PrepFacts.clean_Ok_In P _ _ _ H Hr) as (r0 & _ & Hret & Hc).
  destruct (PrepFacts.retained_inv _ Hret) as ((s & Hs) & Hq & Hp & _).
  destruct (PrepFacts.clean_row_inv P _ _ Hc) as (t & z & _ & _ & ->).
  simpl. rewrite Hs. simpl. repeat split; auto. discriminate.
Qed.

Lemma clean_output_invariants_witness :
  clean IsoText.parse Samples.frame_mug = Ok Samples.frame_mug_cleaned
  /\ (forall r, In r (rows Samples.frame_mug_cleaned) ->
        Description r <> None
        /\ isna_num (Customer_ID r) = false
        /\ 0 < Quantity r
        /\ gt_zero (Price r) = true).
Proof.
  split; [reflexivity|].
  apply (clean_output_invariants IsoText.parse Samples.frame_mug).
  reflexivity.
Defined.




(** The product is not rounded to a decimal: three items at 0.10 cost
    0.30000000000000004, which is not the float 0.3. *)
Example TotalPrice_not_rounded_to_decimal :
  mul_int_float 3 (decimal 1 1) = S754_finite false 5404319552844596 (-54)
  /\ decimal 3 1 = S754_finite false 5404319552844595 (-54).
Proof. split; reflexivity. Qed.

(** A quantity beyond [2^53] is rounded when it is converted: at the
    price 1.0, [2^53 + 1] items cost [2^53]. *)
Example TotalPrice_of_large_quantity :
  mul_int_float (2 ^ 53 + 1) (of_int 1) = of_int (2 ^ 53)
  /\ trunc (of_int (2 ^ 53)) = 2 ^ 53.
Proof. split; reflexivity. Qed.

(** With a price column of whole numbers the product is taken in 64
    bits, and wraps: 3037000500 items at 3037000500 each get a negative
    [TotalPrice]. *)
Example TotalPrice_wraps_in_int64 :
  clean IsoText.parse Samples.frame_whole_price
  = Ok [(0, Samples.whole_price_cleaned)]
  /\ TotalPrice Samples.whole_price_cleaned
     = Some (NInt (-9223372036709301616))
  /\ 3037000500 * 3037000500 = 9223372037000250000.
Proof. repeat split; reflexivity. Qed.

(** What [nearest] fixes: three times the float 0.1 lies halfway
    between two floats; the one with the even mantissa is the rounded
    product, the other one is not. *)
Example nearest_of_three_dimes :
  Rounding.rounded_product (of_int 3) (decimal 1 1)
    (S754_finite false 5404319552844596 (-54))
  /\ ~ Rounding.rounded_product (of_int 3) (decimal 1 1)
         (S754_finite false 5404319552844595 (-54)).
Proof.
  split.
  - split; [reflexivity|].
    split; vm_compute; [intros H; discriminate H|intros _; reflexivity].
  - intros (_ & _ & H). vm_compute in H. specialize (H eq_refl).
    discriminate H.
Qed.

(** C3, as the specification states it, fails: a value that is not a
    date does not abort [clean] when its record has no description,
    because that record is dropped before the dates are parsed. *)
Lemma bad_date_without_description_is_dropped :
  (exists r s, In r (rows Samples.frame_bad_date_dropped)
               /\ InvoiceDate r = DateStr s /\ IsoText.parse s = None)
  /\ clean IsoText.parse Samples.frame_bad_date_dropped
     = Ok Samples.frame_mug_cleaned
  /\ clean IsoText.parse Samples.frame_bad_date_dropped
     <> Raise ParserError.
Proof.
  split; [|split].
  - exists Samples.no_description_bad_date, "not a date"%string.
    simpl. auto.
  - reflexivity.
  - discriminate.
Qed.

(** C3, amended.  If the [InvoiceDate] of any record that has a
    description is not a date, [clean] raises the parse error and
    returns no frame, whatever the other records are. *)
Theorem clean_bad_date_aborts P df r s :
  In r (rows df) -> Description r <> None ->
  InvoiceDate r = DateStr s -> P s = None ->
  clean P df = Raise ParserError.
Proof.
  intros Hr Hd Hs HP. apply PrepFacts.clean_Raise_ParserError. eauto 6.
Qed.

Lemma clean_bad_date_aborts_witness :
  clean IsoText.parse
    [(0, Samples.mug);
     (1, Samples.raw (Some "Lamp"%string) (-5) (DateStr "31 Nov"%string)
                     (decimal 100 2) (NFloat nan))]
  = Raise ParserError.
Proof.
  apply (clean_bad_date_aborts IsoText.parse _
           (Samples.raw (Some "Lamp"%string) (-5) (DateStr "31 Nov"%string)
                        (decimal 100 2) (NFloat nan))
           "31 Nov"%string).
  - simpl. auto.
  - simpl. discriminate.
  - reflexivity.
  - reflexivity.
Defined.

(** C4, as the specification states it, fails: a description made of
    white space is not null, so its record is kept, and it is empty
    once stripped. *)
Lemma blank_description_is_kept_empty :
  clean IsoText.parse Samples.frame_blank = Ok [(0, Samples.blank_cleaned)]
  /\ Description Samples.blank_cleaned = Some EmptyString.
Proof. split; reflexivity. Qed.

(** C4, amended.  In every record of the output of [clean] the
    [Description] is the stripped text of the input record: a string
    without white space at either end, which is empty exactly when the
    input text holds nothing but white space. *)
Theorem clean_Description_stripped P df out :
  clean P df = Ok out ->
  Forall2 (fun r0 r =>
             exists s, Description r0 = Some s
                       /\ Description r = Some (Text.strip s)
                       /\ Text.trimmed (Text.strip s) = true
                       /\ (Text.strip s = EmptyString
                           <-> Text.all_space s = true))
          (filter retained (rows df)) (rows out).
Proof.
  intros H. apply PrepFacts.clean_Ok_rows in H. destruct H as [H _].
  assert (Hret : Forall (fun r0 => retained r0 = true)
                        (filter retained (rows df)))
    by (apply Forall_forall; intros r0 Hr0; apply filter_In in Hr0; tauto).
  induction H as [|r0 r l l' Hc _ IH]; constructor.
  - inversion Hret as [|? ? Hr0 _]; subst.
    destruct (PrepFacts.retained_inv _ Hr0) as ((s & Hs) & _).
    destruct (PrepFacts.clean_row_inv P _ _ Hc) as (t & z & _ & _ & ->).
    exists s. simpl. rewrite Hs. simpl.
    repeat split; auto using TextFacts.strip_trimmed;
      apply TextFacts.strip_empty.
  - apply IH. inversion Hret; assumption.
Qed.

Lemma clean_Description_stripped_witness :
  clean IsoText.parse Samples.frame_mug = Ok Samples.frame_mug_cleaned
  /\ Forall2 (fun r0 r =>
               exists s, Description r0 = Some s
                         /\ Description r = Some (Text.strip s)
                         /\ Text.trimmed (Text.strip s) = true
                         /\ (Text.strip s = EmptyString
                             <-> Text.all_space s = true))
            (filter retained (rows Samples.frame_mug))
            (rows Samples.frame_mug_cleaned).
Proof.
  split; [reflexivity|].
  apply (clean_Description_stripped IsoText.parse Samples.frame_mug).
  reflexivity.
Defined.

(** C5, as the specification states it, fails: a finite customer
    identifier whose integer part does not fit 64 bits is retained, and
    the cast does not return its truncation. *)
Lemma huge_customer_not_truncated :
  Customer_ID Samples.huge_customer = NFloat (of_int (10 ^ 30))
  /\ isna_num (NFloat (of_int (10 ^ 30))) = false
  /\ truncate_toward_zero (of_int (10 ^ 30))
     = 1000000000000000019884624838656
  /\ clean IsoText.parse Samples.frame_huge_customer
     = Ok [(0, Samples.huge_customer_cleaned)]
  /\ Customer_ID Samples.huge_customer_cleaned
     = NInt (-9223372036854775808).
Proof. repeat split; vm_compute; reflexivity. Qed.

(** C5, amended.  For every non-null numeric [Customer ID] value [v]
    retained by [clean] whose integer part fits a signed 64-bit
    integer, the output [Customer ID] is [v] truncated toward zero: a
    fraction of a float is cut off, not rounded, and an integer is
    kept. *)
Theorem clean_Customer_ID_truncated P df out :
  clean P df = Ok out ->
  Forall2 (fun r0 r =>
             (forall v, Customer_ID r0 = NFloat v ->
                        in_int64 (truncate_toward_zero v) = true ->
                        Customer_ID r = NInt (truncate_toward_zero v))
             /\ (forall z, Customer_ID r0 = NInt z ->
                           Customer_ID r = NInt z))
          (filter retained (rows df)) (rows out).
Proof.
  intros H. apply PrepFacts.clean_Ok_rows in H. destruct H as [H _].
  induction H as [|r0 r l l' Hc _ IH]; constructor; [|exact IH].
  destruct (PrepFacts.clean_row_inv P _ _ Hc) as (t & z & _ & Hz & ->).
  simpl. split.
  - intros v Hv Hfit. rewrite Hv in Hz. simpl in Hz.
    destruct (isfinite v); [|discriminate].
    inversion Hz as [Hz']. unfold to_int64.
    rewrite Float64Facts.trunc_toward_zero, Hfit. reflexivity.
  - intros z' Hz'. rewrite Hz' in Hz. simpl in Hz. congruence.
Qed.

Lemma clean_Customer_ID_truncated_witness :
  clean IsoText.parse Samples.frame_mug = Ok Samples.frame_mug_cleaned
  /\ Forall2 (fun r0 r =>
               (forall v, Customer_ID r0 = NFloat v ->
                          in_int64 (truncate_toward_zero v) = true ->
                          Customer_ID r = NInt (truncate_toward_zero v))
               /\ (forall z, Customer_ID r0 = NInt z ->
                             Customer_ID r = NInt z))
            (filter retained (rows Samples.frame_mug))
            (rows Samples.frame_mug_cleaned).
Proof.
  split; [reflexivity|].
  apply (clean_Customer_ID_truncated IsoText.parse Samples.frame_mug).
  reflexivity.
Defined.

(** 17850.7 becomes 17850 where rounding gives 17851, and -3.7 becomes
    -3 where rounding and flooring give -4. *)
Example fractions_are_cut_off :
  rmap (fun out => map Customer_ID (rows out))
       (clean IsoText.parse Samples.frame_fraction_customer)
  = Ok [NInt 17850; NInt (-3)]
  /\ round_half_even (decimal 178507 1) = 17851
  /\ round_half_even (decimal (-37) 1) = -4.
Proof. repeat split; vm_compute; reflexivity. Qed.

(** C6.  The record with description [" Mug "], quantity 3, price 2.50,
    customer 17850.0 and date ["2010-12-01 08:26"] is cleaned to a record
    with description ["Mug"], total price 7.50, customer 17850, year
    2010, month 12, ISO week 48 and day ["Wednesday"], whatever its
    index label and remaining columns are. *)
Theorem clean_mug_scenario i invoice stock country :
  clean IsoText.parse
    [(i, mkRow invoice stock (Some " Mug "%string) 3
               (DateStr "2010-12-01 08:26"%string) (NFloat (decimal 250 2))
               (NFloat (decimal 178500 1)) country
               None None None None None None)]
  = Ok [(0, mkRow invoice stock (Some "Mug"%string) 3
                  (DateTime (Timestamp (Calendar.make_ns 2010 12 1 8 26 0)))
                  (NFloat (decimal 250 2)) (NInt 17850) country
                  (Some (NFloat (decimal 750 2))) (Some 2010) (Some 12)
                  (Some (2010, 12)) (Some 48) (Some "Wednesday"%string))].
Proof. vm_compute. reflexivity. Qed.

(** C7.  [clean] is idempotent: a frame returned by [clean] is returned
    unchanged when cleaned again, since each of its records passes the
    four filters and recomputes to itself. *)
Theorem clean_idempotent P df out :
  clean P df = Ok out -> clean P out = Ok out.
Proof.
  intros H. apply PrepFacts.clean_Ok_rows in H. destruct H as [H Hidx].
  apply PrepFacts.clean_fixed; [|exact Hidx].
  assert (Hret : Forall (fun r0 => retained r0 = true)
                        (filter retained (rows df)))
    by (apply Forall_forall; intros r0 Hr0; apply filter_In in Hr0; tauto).
  clear Hidx. induction H as [|r0 r l l' Hc _ IH];
    inversion Hret; subst; constructor; auto.
  eapply PrepFacts.clean_row_is_clean; eassumption.
Qed.

Lemma clean_idempotent_witness :
  clean IsoText.parse Samples.frame_undated
  = Ok [(0, Samples.mug_cleaned); (1, Samples.undated_cleaned)]
  /\ clean IsoText.parse
       [(0, Samples.mug_cleaned); (1, Samples.undated_cleaned)]
     = Ok [(0, Samples.mug_cleaned); (1, Samples.undated_cleaned)].
Proof.
  split; [reflexivity|].
  apply (clean_idempotent IsoText.parse Samples.frame_undated).
  reflexivity.
Defined.

(** C8, as the specification states it, fails: a record whose date is
    missing is retained, and its week, month and day name are missing
    too. *)
Lemma undated_record_has_no_calendar_fields :
  clean IsoText.parse Samples.frame_undated
  = Ok [(0, Samples.mug_cleaned); (1, Samples.undated_cleaned)]
  /\ InvoiceWeek Samples.undated_cleaned = None
  /\ InvoiceMonth Samples.undated_cleaned = None
  /\ InvoiceDay Samples.undated_cleaned = None.
Proof. repeat split; reflexivity. Qed.

(** C8, amended.  In every record of the output of [clean] whose
    [InvoiceDate] is not null, [InvoiceWeek] is an integer in [1, 53],
    [InvoiceMonth] an integer in [1, 12], and [InvoiceDay] one of the
    seven full English weekday names. *)
Theorem clean_calendar_fields P df out :
  clean P df = Ok out ->
  forall r, In r (rows out) -> InvoiceDate r <> DateTime NaT ->
    (exists w, InvoiceWeek r = Some w /\ 1 <= w <= 53)
    /\ (exists m, InvoiceMonth r = Some m /\ 1 <= m <= 12)
    /\ (exists d, InvoiceDay r = Some d /\ In d Calendar.DAYS_FULL).
Proof.
  intros H r Hr Hdate.
  destruct (PrepFacts.clean_Ok_In P _ _ _ H Hr) as (r0 & _ & _ & Hc).
  destruct (PrepFacts.clean_row_inv P _ _ Hc) as (t & z & _ & _ & ->).
  simpl in *. destruct t as [|ns]; [contradiction Hdate; reflexivity|].
  simpl. repeat split; eexists; (split; [reflexivity|]).
  - apply CalendarFacts.week_of_bounds.
  - apply CalendarFacts.month_of_bounds.
  - apply CalendarFacts.day_name_of_full.
Qed.

Lemma clean_calendar_fields_witness :
  clean IsoText.parse Samples.frame_mug = Ok Samples.frame_mug_cleaned
  /\ In Samples.mug_cleaned (rows Samples.frame_mug_cleaned)
  /\ InvoiceDate Samples.mug_cleaned <> DateTime NaT
  /\ (exists w, InvoiceWeek Samples.mug_cleaned = Some w /\ 1 <= w <= 53)
  /\ (exists m, InvoiceMonth Samples.mug_cleaned = Some m /\ 1 <= m <= 12)
  /\ (exists d, InvoiceDay Samples.mug_cleaned = Some d
                /\ In d Calendar.DAYS_FULL).
Proof.
  split; [reflexivity|]. split; [simpl; auto|]. split; [discriminate|].
  apply (clean_calendar_fields IsoText.parse Samples.frame_mug
           Samples.frame_mug_cleaned).
  - reflexivity.
  - simpl. auto.
  - discriminate.
Defined.

(** C9.  Whenever [clean] succeeds, the records of the output are the
    retained records of the input, each cleaned, in their input order;
    there are at most as many as in the input; and the output index is
    0, 1, ..., n-1. *)
Theorem clean_keeps_order P df out :
  clean P df = Ok out ->
  Forall2 (fun r0 r =>
             clean_row P r0 = Ok r
             /\ InvoiceNo r = InvoiceNo r0 /\ StockCode r = StockCode r0
             /\ Quantity r = Quantity r0 /\ Price r = Price r0
             /\ Country r = Country r0)
          (filter retained (rows df)) (rows out)
  /\ (List.length out <= List.length df)%nat
  /\ index out = range (List.length out).
Proof.
  intros H. apply PrepFacts.clean_Ok_rows in H. destruct H as [H Hidx].
  split; [|split].
  - clear Hidx. induction H as [|r0 r l l' Hc _ IH]; constructor;
      [|exact IH].
    split; [exact Hc|].
    destruct (PrepFacts.clean_row_inv P _ _ Hc) as (t & z & _ & _ & ->).
    simpl. auto.
  - apply Forall2_length in H.
    replace (List.length out) with (List.length (rows out))
      by apply length_map.
    rewrite <- H.
    replace (List.length df) with (List.length (rows df))
      by apply length_map.
    apply filter_length_le.
  - rewrite Hidx at 1. rewrite FrameFacts.index_number_from.
    unfold range, rows. rewrite length_map. reflexivity.
Qed.

Lemma clean_keeps_order_witness :
  clean IsoText.parse Samples.frame_bad_date_dropped
  = Ok Samples.frame_mug_cleaned
  /\ Forall2 (fun r0 r =>
               clean_row IsoText.parse r0 = Ok r
               /\ InvoiceNo r = InvoiceNo r0 /\ StockCode r = StockCode r0
               /\ Quantity r = Quantity r0 /\ Price r = Price r0
               /\ Country r = Country r0)
            (filter retained (rows Samples.frame_bad_date_dropped))
            (rows Samples.frame_mug_cleaned)
  /\ (List.length Samples.frame_mug_cleaned
      <= List.length Samples.frame_bad_date_dropped)%nat
  /\ index Samples.frame_mug_cleaned
     = range (List.length Samples.frame_mug_cleaned).
Proof.
  split; [reflexivity|].
  apply (clean_keeps_order IsoText.parse Samples.frame_bad_date_dropped).
  reflexivity.
Defined.





(* ================================================================= *)
(** * Checks of the calendar and the parser on known dates *)

Example civil_epoch : Calendar.civil_from_days 0 = (1970, 1, 1).
Proof. reflexivity. Qed.

(** The date of a day count and the day count of a date agree on every
    day from 1970-01-01 to 2052-02-19. *)
Example civil_round_trip_from_1970 :
  fst (Pos.iter
         (fun st : bool * Z =>
            let '(ok, days) := st in
            let '(y, m, d) := Calendar.civil_from_days days in
            (ok && (Calendar.days_from_civil y m d =? days)
                && (d <=? IsoText.days_in_month y m),
             days + 1))
         (true, Calendar.days_from_civil 1970 1 1)
         30000) = true.
Proof. vm_compute. reflexivity. Qed.

Example civil_leap_day :
  Calendar.civil_from_days (Calendar.days_from_civil 2012 2 29) = (2012, 2, 29).
Proof. reflexivity. Qed.

(** 2010-12-01 was a Wednesday in ISO week 48; 2021-01-03 was a Sunday
    in ISO week 53 of 2020; 2019-12-30 was a Monday in week 1 of 2020. *)
Example week_and_day_of_known_dates :
  map (fun ns => (Calendar.week_of ns, Calendar.day_name_of ns))
      [Calendar.make_ns 2010 12 1 8 26 0;
       Calendar.make_ns 2021 1 3 0 0 0;
       Calendar.make_ns 2019 12 30 23 59 59]
  = [(48, "Wednesday"%string); (53, "Sunday"%string); (1, "Monday"%string)].
Proof. vm_compute. reflexivity. Qed.

Example parse_2010_12_01 :
  IsoText.parse "2010-12-01 08:26"
  = Some (Timestamp (Calendar.make_ns 2010 12 1 8 26 0)).
Proof. reflexivity. Qed.

Example parse_rejects_words : IsoText.parse "not a date" = None.
Proof. reflexivity. Qed.

Example parse_rejects_month_13 : IsoText.parse "2010-13-01" = None.
Proof. reflexivity. Qed.

Example strip_mug : Text.strip " Mug " = "Mug"%string.
Proof. reflexivity. Qed.

(* ================================================================= *)
(** * Further properties of [clean] *)

(** ** More on text *)

Module TextParts.

Import Text.
Local Open Scope string_scope.

Lemma lstrip_parts s :
  exists pre, s = pre ++ lstrip s /\ all_space pre = true.
Proof.
  induction s as [|c s IH]; simpl.
  - exists "". auto.
  - destruct (isspace c) eqn:E.
    + destruct IH as (pre & Hs & Hpre). exists (String c pre). simpl.
      rewrite <- Hs, E, Hpre. auto.
    + exists "". auto.
Qed.

Lemma rstrip_parts s :
  exists post, s = rstrip s ++ post /\ all_space post = true.
Proof.
  induction s as [|c s IH]; simpl.
  - exists "". auto.
  - destruct IH as (post & Hs & Hpost).
    destruct (rstrip s) as [|c' r] eqn:E.
    + simpl in Hs. subst post. destruct (isspace c) eqn:Ec.
      * exists (String c s). simpl. rewrite Ec, Hpost. auto.
      * exists s. auto.
    + exists post. simpl. rewrite Hs at 1. auto.
Qed.

(** [strip] removes a run of white space at each end and nothing
    else. *)
Theorem strip_parts s :
  exists pre post,
    s = pre ++ strip s ++ post
    /\ all_space pre = true /\ all_space post = true.
Proof.
  destruct (lstrip_parts s) as (pre & Hs & Hpre).
  destruct (rstrip_parts (lstrip s)) as (post & Hl & Hpost).
  exists pre, post. unfold strip. rewrite <- Hl. auto.
Qed.

End TextParts.

(** ** More on the calendar *)

Module CalendarRoundTrip.

Import Calendar.

Lemma civil_fields_of_era_day doe :
  0 <= doe <= 146096 ->
  let yoe := (doe - doe / 1460 + doe / 36524 - doe / 146096) / 365 in
  let doy := doe - (365 * yoe + yoe / 4 - yoe / 100) in
  let mp := (5 * doy + 2) / 153 in
  let d := doy - (153 * mp + 2) / 5 + 1 in
  0 <= yoe <= 399 /\ 0 <= mp <= 11 /\
  (153 * mp + 2) / 5 + d - 1 = doy /\
  yoe * 365 + yoe / 4 - yoe / 100 + doy = doe.
Proof. intros H. cbv zeta. Z.div_mod_to_equations. lia. Qed.



End CalendarRoundTrip.

(** ** More on [clean] *)

Module PrepMore.

Import Float64 Frame Prep FrameFacts Views.

(** Related lists, filtered and converted alike, give the same
    result. *)
Lemma mapM_filter_related {A B} (R : A -> A -> Prop) (p : A -> bool)
    (f : A -> result B) l l' :
  (forall a b, R a b -> p a = p b /\ f a = f b) ->
  Forall2 R l l' -> mapM f (filter p l) = mapM f (filter p l').
Proof.
  intros HR. induction 1 as [|a b l l' Hab _ IH]; simpl; [reflexivity|].
  destruct (HR a b Hab) as [Hp Hf]. rewrite <- Hp.
  destruct (p a); simpl; [|exact IH]. rewrite Hf, IH. reflexivity.
Qed.

Section WithParser.

Variable P : string -> option datetime.

Lemma same_raw_alike r r' :
  same_raw r r' ->
  (has_Description r = has_Description r'
   /\ to_datetime P (InvoiceDate r) = to_datetime P (InvoiceDate r'))
  /\ (retained r = retained r' /\ clean_row P r = clean_row P r').
Proof.
  destruct r, r'. unfold same_raw. simpl.
  intros (-> & -> & -> & -> & -> & -> & -> & ->).
  repeat split; reflexivity.
Qed.

End WithParser.

End PrepMore.

Import Views.

(** X1.  [clean] reads nothing but the eight raw columns: two frames whose
    records agree on them, in order, are cleaned alike, whatever their
    index labels and whatever derived columns they carry already. *)
Theorem clean_reads_raw_columns_only P df df' :
  Forall2 same_raw (rows df) (rows df') -> clean P df = clean P df'.
Proof.
  intros H. rewrite !PrepFacts.clean_by_rows.
  rewrite (PrepMore.mapM_filter_related same_raw has_Description
             (fun r => to_datetime P (InvoiceDate r)) _ _
             (fun a b Hab => proj1 (PrepMore.same_raw_alike P a b Hab)) H).
  rewrite (PrepMore.mapM_filter_related same_raw retained (clean_row P) _ _
             (fun a b Hab => proj2 (PrepMore.same_raw_alike P a b Hab)) H).
  reflexivity.
Qed.

Lemma clean_reads_raw_columns_only_witness :
  clean IsoText.parse [(7, Samples.mug_cleaned)]
  = clean IsoText.parse Samples.frame_mug_cleaned
  /\ clean IsoText.parse [(42, Samples.mug)]
     = clean IsoText.parse [(0, set_TotalPrice (Some (NFloat nan)) Samples.mug)].
Proof.
  split.
  - apply (clean_reads_raw_columns_only IsoText.parse
             [(7, Samples.mug_cleaned)] Samples.frame_mug_cleaned).
    repeat constructor.
  - apply (clean_reads_raw_columns_only IsoText.parse
             [(42, Samples.mug)]
             [(0, set_TotalPrice (Some (NFloat nan)) Samples.mug)]).
    repeat constructor.
Defined.



(** X6.  [clean] changes a description only at its ends: the input text is
    the output text between two runs of white space. *)
Theorem clean_Description_parts P df out :
  clean P df = Ok out ->
  Forall2 (fun r0 r =>
             exists s core pre post,
               Description r0 = Some s /\ Description r = Some core
               /\ s = (pre ++ core ++ post)%string
               /\ Text.all_space pre = true
               /\ Text.all_space post = true)
          (filter retained (rows df)) (rows out).
Proof.
  intros H. apply PrepFacts.clean_Ok_rows in H. destruct H as [H _].
  assert (Hret : Forall (fun r0 => retained r0 = true)
                        (filter retained (rows df)))
    by (apply Forall_forall; intros r0 Hr0; apply filter_In in Hr0; tauto).
  induction H as [|r0 r l l' Hc _ IH]; constructor.
  - inversion Hret as [|? ? Hr0 _]; subst.
    destruct (PrepFacts.retained_inv _ Hr0) as ((s & Hs) & _).
    destruct (PrepFacts.clean_row_inv P _ _ Hc) as (t & z & _ & _ & ->).
    destruct (TextParts.strip_parts s) as (pre & post & Hparts & Hpre & Hpost).
    exists s, (Text.strip s), pre, post. simpl. rewrite Hs. simpl. auto.
  - apply IH. inversion Hret; assumption.
Qed.

Lemma clean_Description_parts_witness :
  clean IsoText.parse Samples.frame_mug = Ok Samples.frame_mug_cleaned
  /\ Forall2 (fun r0 r =>
               exists s core pre post,
                 Description r0 = Some s /\ Description r = Some core
                 /\ s = (pre ++ core ++ post)%string
                 /\ Text.all_space pre = true
                 /\ Text.all_space post = true)
            (filter retained (rows Samples.frame_mug))
            (rows Samples.frame_mug_cleaned).
Proof.
  split; [reflexivity|].
  apply (clean_Description_parts IsoText.parse Samples.frame_mug).
  reflexivity.
Defined.



(** X8.  In the output of [clean] no [InvoiceDate] is text any more, and the
    five columns derived from it are null together: all of them for a
    missing date, none of them for a timestamp. *)
Theorem clean_date_columns P df out :
  clean P df = Ok out ->
  forall r, In r (rows out) ->
    (InvoiceDate r = DateTime NaT
     /\ date_columns r = (None, None, None, None, None))
    \/ (exists ns y m w d,
          InvoiceDate r = DateTime (Timestamp ns)
          /\ date_columns r = (Some y, Some m, Some (y, m), Some w, Some d)).
Proof.
  intros H r Hr.
  destruct (PrepFacts.clean_Ok_In P _ _ _ H Hr) as (r0 & _ & _ & Hc).
  destruct (PrepFacts.clean_row_inv P _ _ Hc) as (t & z & _ & _ & ->).
  destruct t as [|ns]; [left; split; reflexivity|].
  right. exists ns. unfold date_columns. simpl. eauto 8.
Qed.

Lemma clean_date_columns_witness :
  clean IsoText.parse Samples.frame_undated
  = Ok [(0, Samples.mug_cleaned); (1, Samples.undated_cleaned)]
  /\ ((InvoiceDate Samples.undated_cleaned = DateTime NaT
       /\ date_columns Samples.undated_cleaned
          = (None, None, None, None, None))
      \/ (exists ns y m w d,
            InvoiceDate Samples.undated_cleaned = DateTime (Timestamp ns)
            /\ date_columns Samples.undated_cleaned
               = (Some y, Some m, Some (y, m), Some w, Some d))).
Proof.
  split; [reflexivity|].
  apply (clean_date_columns IsoText.parse Samples.frame_undated
           [(0, Samples.mug_cleaned); (1, Samples.undated_cleaned)]).
  - reflexivity.
  - simpl. auto.
Defined.

(* ================================================================= *)
(** * [repo_root], [load_raw], [save_clean] and [main] *)

Module ScriptFacts.

Import Script.

(** X10.  [repo_root] is the directory two levels above the script file,
    wherever that is; it raises [IndexError] exactly when the script
    path has fewer than two components. *)
Theorem repo_root_grandparent script root :
  (repo_root script = Done root <-> exists d f, script = root ++ [d; f])
  /\ (repo_root script = Failed IndexError
      <-> (List.length script < 2)%nat).
Proof.
  unfold repo_root, parents. split; split.
  - destruct (Nat.ltb_spec 1 (List.length script)) as [Hl|Hl];
      [|discriminate].
    intros H. inversion H as [Hroot]. clear H.
    pose proof (firstn_skipn (List.length script - 2) script) as Hs.
    assert (Hk : List.length (skipn (List.length script - 2) script) = 2%nat)
      by (rewrite length_skipn; lia).
    destruct (skipn (List.length script - 2) script) as [|d [|f [|x l]]];
      simpl in Hk; try lia.
    exists d, f. symmetry. exact Hs.
  - intros (d & f & ->). rewrite length_app. simpl List.length.
    destruct (Nat.ltb_spec 1 (List.length root + 2)) as [_|Hl]; [|lia].
    replace (List.length root + 2 - 2)%nat
      with (List.length root + 0)%nat by lia.
    rewrite firstn_app_2. simpl. rewrite app_nil_r. reflexivity.
  - destruct (Nat.ltb_spec 1 (List.length script)); [discriminate|lia].
  - intros Hl. destruct (Nat.ltb_spec 1 (List.length script)); [lia|].
    reflexivity.
Qed.

Section WithSystem.

Variable World : Type.
Variable script : Path.
Variable read_csv : Path -> World -> outcome DataFrame.
Variable mkdir : Path -> World -> outcome unit * World.
Variable to_csv : DataFrame -> Path -> World -> outcome unit * World.
Variable parse_args :
  Path -> Path -> list string -> outcome (Path * Path) * list string.
Variable path_str : Path -> string.
Variable P : string -> option datetime.

Local Abbreviation main' :=
  (main World script read_csv mkdir to_csv parse_args path_str P).
Local Abbreviation load_raw' := (load_raw World script read_csv).
Local Abbreviation save_clean' := (save_clean World script mkdir to_csv).

Ltac run_main H :=
  cbv beta iota delta [main seq lift load_raw save_clean reading writing
                       printing of_clean print ret raise] in H.

(** X11.  [main] changes nothing on disk before the frame is read and
    cleaned: a run that leaves another file system than it found has
    parsed its arguments, read the input file and cleaned it without
    error. *)
Theorem main_writes_only_after_clean argv st o st' :
  main' argv st = (o, st') -> fs World st' <> fs World st ->
  exists root input output said df out,
    repo_root script = Done root
    /\ parse_args (join root ["data"; "online_retail_raw.csv"]%string)
                  (join root ["data"; "online_retail_clean.csv"]%string)
                  argv = (Done (input, output), said)
    /\ read_csv input (fs World st) = Done df
    /\ clean P df = Ok out.
Proof.
  intros H Hneq. run_main H.
  destruct (repo_root script) as [root|e] eqn:Er;
    [|inversion H; subst; exfalso; apply Hneq; reflexivity].
  destruct (parse_args _ _ argv) as [[[input output]|e] said] eqn:Ea;
    cbn [fst snd fs stdout] in H;
    [|inversion H; subst; exfalso; apply Hneq; reflexivity].
  destruct (read_csv input (fs World st)) as [df|e] eqn:Ed;
    [|inversion H; subst; exfalso; apply Hneq; reflexivity].
  destruct (clean P df) as [out|e] eqn:Ec;
    [|inversion H; subst; exfalso; apply Hneq; reflexivity].
  exists root, input, output, said, df, out. auto.
Qed.

(** X12.  [main] prints its one line, naming the output path it was given,
    exactly when the whole run succeeded; in a failed run nothing is
    printed but what the argument parser printed itself. *)
Theorem main_prints_iff_success argv st o st' :
  main' argv st = (o, st') ->
  (o = Done tt
   /\ exists root input output said,
        repo_root script = Done root
        /\ parse_args (join root ["data"; "online_retail_raw.csv"]%string)
                      (join root ["data"; "online_retail_clean.csv"]%string)
                      argv = (Done (input, output), said)
        /\ stdout World st'
           = (stdout World st ++ said)
             ++ [("Wrote cleaned data to: " ++ path_str output)%string])
  \/ ((exists e, o = Failed e)
      /\ (stdout World st' = stdout World st
          \/ exists root,
               repo_root script = Done root
               /\ stdout World st'
                  = stdout World st
                    ++ snd (parse_args
                              (join root
                                 ["data"; "online_retail_raw.csv"]%string)
                              (join root
                                 ["data"; "online_retail_clean.csv"]%string)
                              argv))).
Proof.
  intros H. run_main H.
  destruct (repo_root script) as [root|e] eqn:Er;
    [|inversion H; subst; right; eauto].
  destruct (parse_args _ _ argv) as [[[input output]|e] said] eqn:Ea;
    cbn [fst snd fs stdout] in H;
    [|inversion H; subst; right; split; [eauto|]; right; exists root;
      rewrite Ea; auto].
  destruct (read_csv input (fs World st)) as [df|e];
    [|inversion H; subst; right; split; [eauto|]; right; exists root;
      rewrite Ea; auto].
  destruct (clean P df) as [out|e];
    [|inversion H; subst; right; split; [eauto|]; right; exists root;
      rewrite Ea; auto].
  cbn [fs stdout] in H.
  destruct (mkdir (parent output) (fs World st)) as [[[]|e] w1];
    [|inversion H; subst; right; split; [eauto|]; right; exists root;
      rewrite Ea; auto].
  cbn [fs stdout] in H.
  destruct (to_csv out output w1) as [[[]|e] w2];
    [|inversion H; subst; right; split; [eauto|]; right; exists root;
      rewrite Ea; auto].
  cbn [fs stdout] in H. inversion H; subst. left. split; [reflexivity|].
  exists root, input, output, said. auto.
Qed.

(** X13.  By default the cleaned file goes into the directory of the raw
    file, [<root>/data], under another name: the defaults of
    [load_raw], of [save_clean] and of the arguments of [main] are the
    same two paths, and the two are different files. *)
Theorem default_files_side_by_side root :
  repo_root script = Done root ->
  exists p_in p_out,
    p_in <> p_out
    /\ parent p_in = join root ["data"%string]
    /\ parent p_out = join root ["data"%string]
    /\ (forall st, load_raw' None st = load_raw' (Some p_in) st)
    /\ (forall df st, save_clean' df None st = save_clean' df (Some p_out) st)
    /\ (forall argv st e said,
          parse_args p_in p_out argv = (Failed e, said) ->
          main' argv st
          = (Failed e, mkState World (fs World st) (stdout World st ++ said))).
Proof.
  intros Hroot.
  exists (join root ["data"; "online_retail_raw.csv"]%string),
         (join root ["data"; "online_retail_clean.csv"]%string).
  unfold join, parent. split; [|split; [|split; [|split; [|split]]]].
  - intros H. apply app_inv_head in H. discriminate.
  - change ["data"; "online_retail_raw.csv"]%string
      with (["data"%string] ++ ["online_retail_raw.csv"%string])%list.
    rewrite app_assoc. apply removelast_last.
  - change ["data"; "online_retail_clean.csv"]%string
      with (["data"%string] ++ ["online_retail_clean.csv"%string])%list.
    rewrite app_assoc. apply removelast_last.
  - intros st. unfold load_raw, seq, lift, ret.
    rewrite Hroot. reflexivity.
  - intros df st. unfold save_clean, seq, lift, ret.
    rewrite Hroot. reflexivity.
  - intros argv st e said He. unfold main, seq, lift, printing, join.
    rewrite Hroot, He. reflexivity.
Qed.

End WithSystem.

End ScriptFacts.

Lemma main_writes_only_after_clean_witness :
  DemoSystem.run [] DemoSystem.before = (Script.Done tt, DemoSystem.after)
  /\ Script.fs DemoSystem.World DemoSystem.after
     <> Script.fs DemoSystem.World DemoSystem.before
  /\ exists root input output said df out,
       Script.repo_root DemoSystem.script = Script.Done root
       /\ DemoSystem.parse_args
            (Script.join root ["data"; "online_retail_raw.csv"]%string)
            (Script.join root ["data"; "online_retail_clean.csv"]%string)
            [] = (Script.Done (input, output), said)
       /\ DemoSystem.read_csv input
            (Script.fs DemoSystem.World DemoSystem.before) = Script.Done df
       /\ clean IsoText.parse df = Ok out.
Proof.
  split; [vm_compute; reflexivity|]. split; [discriminate|].
  apply (ScriptFacts.main_writes_only_after_clean
           DemoSystem.World DemoSystem.script DemoSystem.read_csv
           DemoSystem.mkdir DemoSystem.to_csv DemoSystem.parse_args
           DemoSystem.path_str IsoText.parse
           [] DemoSystem.before (Script.Done tt) DemoSystem.after).
  - vm_compute. reflexivity.
  - discriminate.
Defined.

Lemma main_prints_iff_success_witness :
  DemoSystem.run [] DemoSystem.before = (Script.Done tt, DemoSystem.after)
  /\ ((Script.Done tt = Script.Done tt
       /\ exists root input output said,
            Script.repo_root DemoSystem.script = Script.Done root
            /\ DemoSystem.parse_args
                 (Script.join root ["data"; "online_retail_raw.csv"]%string)
                 (Script.join root ["data"; "online_retail_clean.csv"]%string)
                 [] = (Script.Done (input, output), said)
            /\ Script.stdout DemoSystem.World DemoSystem.after
               = (Script.stdout DemoSystem.World DemoSystem.before ++ said)
                 ++ [("Wrote cleaned data to: "
                      ++ DemoSystem.path_str output)%string])
      \/ ((exists e, Script.Done tt = Script.Failed e)
          /\ (Script.stdout DemoSystem.World DemoSystem.after
              = Script.stdout DemoSystem.World DemoSystem.before
              \/ exists root,
                   Script.repo_root DemoSystem.script = Script.Done root
                   /\ Script.stdout DemoSystem.World DemoSystem.after
                      = Script.stdout DemoSystem.World DemoSystem.before
                        ++ snd (DemoSystem.parse_args
                                  (Script.join root
                                     ["data"; "online_retail_raw.csv"]%string)
                                  (Script.join root
                                     ["data"; "online_retail_clean.csv"]%string)
                                  [])))).
Proof.
  split; [vm_compute; reflexivity|].
  apply (ScriptFacts.main_prints_iff_success
           DemoSystem.World DemoSystem.script DemoSystem.read_csv
           DemoSystem.mkdir DemoSystem.to_csv DemoSystem.parse_args
           DemoSystem.path_str IsoText.parse
           [] DemoSystem.before (Script.Done tt) DemoSystem.after).
  vm_compute. reflexivity.
Defined.

Lemma default_files_side_by_side_witness :
  Script.repo_root DemoSystem.script = Script.Done ["home"; "shop"]%string
  /\ exists p_in p_out,
       p_in <> p_out
       /\ Script.parent p_in
          = Script.join ["home"; "shop"]%string ["data"%string]
       /\ Script.parent p_out
          = Script.join ["home"; "shop"]%string ["data"%string]
       /\ (forall st,
             Script.load_raw DemoSystem.World DemoSystem.script
               DemoSystem.read_csv None st
             = Script.load_raw DemoSystem.World DemoSystem.script
                 DemoSystem.read_csv (Some p_in) st)
       /\ (forall df st,
             Script.save_clean DemoSystem.World DemoSystem.script
               DemoSystem.mkdir DemoSystem.to_csv df None st
             = Script.save_clean DemoSystem.World DemoSystem.script
                 DemoSystem.mkdir DemoSystem.to_csv df (Some p_out) st)
       /\ (forall argv st e said,
             DemoSystem.parse_args p_in p_out argv = (Script.Failed e, said) ->
             DemoSystem.run argv st
             = (Script.Failed e,
                Script.mkState DemoSystem.World
                  (Script.fs DemoSystem.World st)
                  (Script.stdout DemoSystem.World st ++ said))).
Proof.
  split; [reflexivity|].
  apply (ScriptFacts.default_files_side_by_side
           DemoSystem.World DemoSystem.script DemoSystem.read_csv
           DemoSystem.mkdir DemoSystem.to_csv DemoSystem.parse_args
           DemoSystem.path_str IsoText.parse ["home"; "shop"]%string).
  reflexivity.
Defined.

(** A run of [main] that stops in the argument parser prints the
    parser's text and touches no file. *)
Example main_help_run :
  DemoSystem.run ["--help"%string] DemoSystem.before
  = (Script.Failed (Script.External "SystemExit"),
     Script.mkState DemoSystem.World
       (Script.fs DemoSystem.World DemoSystem.before)
       ["usage: data_prep.py"%string]).
Proof. vm_compute. reflexivity. Qed.

(* ================================================================= *)
(** * The week number of [clean] and ISO 8601 *)

Module IsoWeekFacts.
Import Calendar IsoWeek.

Lemma leap_day_cases y :
  (leap_day y = 1 /\ ((y mod 4 = 0 /\ y mod 100 <> 0) \/ y mod 400 = 0))
  \/ (leap_day y = 0 /\ ~ ((y mod 4 = 0 /\ y mod 100 <> 0) \/ y mod 400 = 0)).
Proof.
  unfold leap_day, is_leapyear.
  destruct (Z.eqb_spec (y mod 4) 0), (Z.eqb_spec (y mod 100) 0),
    (Z.eqb_spec (y mod 400) 0); simpl; lia.
Qed.

Lemma leap_day_bounds y : 0 <= leap_day y <= 1.
Proof. unfold leap_day. destruct (is_leapyear y); lia. Qed.

(** A year has 365 days, and one more when it is a leap year. *)
Lemma year_length y : jan1 (y + 1) - jan1 y = 365 + leap_day y.
Proof.
  unfold jan1, days_from_civil.
  change (1 <=? 2) with true. change (2 <? 1) with false. cbv iota zeta.
  replace (y + 1 - 1) with y by lia.
  destruct (leap_day_cases y) as [ [-> H] | [-> H] ];
    Z.div_mod_to_equations; lia.
Qed.

Lemma jan1_after n y : 0 <= n -> jan1 y + 365 * n <= jan1 (y + n).
Proof.
  intros Hn. revert n Hn. apply natlike_ind.
  - replace (y + 0) with y by lia. lia.
  - intros n Hn IH. replace (y + Z.succ n) with (y + n + 1) by lia.
    pose proof (year_length (y + n)). pose proof (leap_day_bounds (y + n)).
    lia.
Qed.

(** The parts of [civil_from_days]: the 400-year era, the year of the
    era and the day of the year, both counted from the first of March,
    and the month counted from March. *)
Lemma civil_parts t :
  exists era yoe doy mp,
    0 <= yoe <= 399 /\ 0 <= doy <= 365 /\ 0 <= mp <= 11
    /\ mp = (5 * doy + 2) / 153
    /\ t + 719468 = era * 146097 + (yoe * 365 + yoe / 4 - yoe / 100 + doy)
    /\ civil_from_days t
       = (if (if mp <? 10 then mp + 3 else mp - 9) <=? 2
          then yoe + era * 400 + 1 else yoe + era * 400,
          if mp <? 10 then mp + 3 else mp - 9,
          doy - (153 * mp + 2) / 5 + 1).
Proof.
  unfold civil_from_days. cbv zeta.
  pose proof (CalendarFacts.day_of_era_bounds (t + 719468)) as Hdoe.
  set (era := (t + 719468) / 146097) in *.
  set (doe := t + 719468 - era * 146097) in *.
  pose proof (CalendarRoundTrip.civil_fields_of_era_day doe Hdoe) as H.
  pose proof (CalendarFacts.day_of_year_bounds doe Hdoe) as H'.
  cbv zeta in H, H'.
  set (yoe := (doe - doe / 1460 + doe / 36524 - doe / 146096) / 365) in *.
  set (doy := doe - (365 * yoe + yoe / 4 - yoe / 100)) in *.
  exists era, yoe, doy, ((5 * doy + 2) / 153).
  destruct H as (Hyoe & Hmp & _ & Hdoe').
  repeat split; first [lia | reflexivity | subst doe; lia].
Qed.

Lemma jan1_of_march_year era yoe :
  0 <= yoe <= 399 ->
  jan1 (yoe + era * 400 + 1)
  = era * 146097 + (yoe * 365 + yoe / 4 - yoe / 100 + 306) - 719468.
Proof.
  intros H. unfold jan1, days_from_civil.
  change (1 <=? 2) with true. change (2 <? 1) with false. cbv iota zeta.
  replace (yoe + era * 400 + 1 - 1) with (yoe + era * 400) by lia.
  assert (Hera : (yoe + era * 400) / 400 = era)
    by (rewrite Z.div_add by lia; rewrite Z.div_small by lia; lia).
  rewrite Hera. replace (yoe + era * 400 - era * 400) with yoe by lia.
  change ((153 * (1 + 9) + 2) / 5) with 306. lia.
Qed.

Lemma month_offset_from_march mp :
  0 <= mp <= 9 -> month_offset (mp + 3) = 59 + (153 * mp + 2) / 5.
Proof.
  intros H.
  assert (Hcases : mp = 0 \/ mp = 1 \/ mp = 2 \/ mp = 3 \/ mp = 4
                   \/ mp = 5 \/ mp = 6 \/ mp = 7 \/ mp = 8 \/ mp = 9)
    by lia.
  repeat (destruct Hcases as [->|Hcases]; [reflexivity|]).
  subst. reflexivity.
Qed.

Lemma month_offset_january mp :
  10 <= mp <= 11 -> month_offset (mp - 9) = (153 * mp + 2) / 5 - 306.
Proof.
  intros H. assert (Hcases : mp = 10 \/ mp = 11) by lia.
  destruct Hcases as [->| ->]; reflexivity.
Qed.

(** The place of a day in its year: the day number counted from the
    first of January is the one [get_day_of_year] computes from the
    date, it lies within the year, and from the 335th day of a common
    year on the month is December. *)
Lemma day_in_year t :
  let '(y, m, d) := civil_from_days t in
  t - jan1 y = get_day_of_year y m d - 1
  /\ 0 <= t - jan1 y < 365 + leap_day y
  /\ (334 + leap_day y <= t - jan1 y ->
      m = 12 /\ d = t - jan1 y - 333 - leap_day y).
Proof.
  destruct (civil_parts t)
    as (era & yoe & doy & mp & Hyoe & Hdoy & Hmp & Emp & Et & ->).
  pose proof (jan1_of_march_year era yoe Hyoe) as Hj.
  destruct (Z.ltb_spec mp 10) as [Hlt|Hge].
  - (* March to December *)
    assert (Hm : (mp + 3 <=? 2) = false) by (apply Z.leb_gt; lia).
    rewrite Hm.
    pose proof (year_length (yoe + era * 400)) as Hy.
    pose proof (leap_day_bounds (yoe + era * 400)) as Hl.
    assert (Hk : t - jan1 (yoe + era * 400)
                 = 59 + leap_day (yoe + era * 400) + doy) by lia.
    rewrite Hk. unfold get_day_of_year.
    assert (H2 : (2 <? mp + 3) = true) by (apply Z.ltb_lt; lia).
    rewrite H2, andb_true_r. fold (leap_day (yoe + era * 400)).
    rewrite month_offset_from_march by lia.
    generalize dependent (leap_day (yoe + era * 400)). intros L Hy Hl Hk.
    clear Hj Hy Hk Et Hm H2.
    split; [|split]; Z.div_mod_to_equations; lia.
  - (* January and February *)
    assert (Hm : (mp - 9 <=? 2) = true) by (apply Z.leb_le; lia).
    rewrite Hm.
    pose proof (leap_day_bounds (yoe + era * 400 + 1)) as Hl.
    assert (Hk : t - jan1 (yoe + era * 400 + 1) = doy - 306) by lia.
    rewrite Hk. unfold get_day_of_year.
    assert (H2 : (2 <? mp - 9) = false) by (apply Z.ltb_ge; lia).
    rewrite H2, andb_false_r.
    rewrite month_offset_january by lia.
    generalize dependent (leap_day (yoe + era * 400 + 1)). intros L Hl.
    clear Hj Hk Et Hm H2.
    split; [|split]; Z.div_mod_to_equations; lia.
Qed.

Lemma year_of_days_spec t :
  jan1 (year_of_days t) <= t < jan1 (year_of_days t + 1).
Proof.
  unfold year_of_days. pose proof (day_in_year t) as H.
  destruct (civil_from_days t) as [[y m] d]. simpl.
  pose proof (year_length y). lia.
Qed.

(** A day belongs to one year only. *)
Lemma year_of_days_unique t y :
  jan1 y <= t < jan1 (y + 1) -> year_of_days t = y.
Proof.
  intros H. pose proof (year_of_days_spec t) as H'.
  set (y' := year_of_days t) in *.
  destruct (Z.lt_trichotomy y' y) as [Hlt|[Heq|Hgt]]; [|exact Heq|].
  - pose proof (jan1_after (y - (y' + 1)) (y' + 1) ltac:(lia)) as Hm.
    replace (y' + 1 + (y - (y' + 1))) with y in Hm by lia. lia.
  - pose proof (jan1_after (y' - (y + 1)) (y + 1) ltac:(lia)) as Hm.
    replace (y + 1 + (y' - (y + 1))) with y' in Hm by lia. lia.
Qed.

(** The week number of [get_week_of_year] is the ISO 8601 week
    number. *)
Theorem get_week_of_year_iso days :
  let '(y, m, d) := civil_from_days days in
  get_week_of_year y m d (dayofweek days) = iso_week days.
Proof.
  pose proof (day_in_year days) as H.
  destruct (civil_from_days days) as [[y m] d].
  destruct H as (Hdoy & Hk & Hdec).
  pose proof (CalendarFacts.dayofweek_bounds days) as Hdow.
  unfold get_week_of_year, iso_week, thursday_of. cbv zeta.
  set (dow := dayofweek days) in *.
  set (k := days - jan1 y) in *.
  replace (get_day_of_year y m d - 1 - dow + 3) with (k - dow + 3) by lia.
  pose proof (year_length y) as Hy.
  pose proof (year_length (y - 1)) as Hy1.
  pose proof (year_length (y + 1)) as Hy2.
  replace (y - 1 + 1) with y in Hy1 by lia.
  pose proof (leap_day_bounds y) as Hl.
  pose proof (leap_day_bounds (y - 1)) as Hl1.
  pose proof (leap_day_bounds (y + 1)) as Hl2.
  destruct (Z.ltb_spec (k - dow + 3) 0) as [Hneg|Hpos].
  - (* the Thursday lies in the year before *)
    rewrite (year_of_days_unique (days - dow + 3) (y - 1))
      by (replace (y - 1 + 1) with y by lia; lia).
    replace (days - dow + 3 - jan1 (y - 1))
      with (k - dow + 3 + 365 + leap_day (y - 1)) by lia.
    unfold leap_day in *.
    destruct (is_leapyear (y - 1));
      destruct (Z.ltb_spec (-2) (k - dow + 3));
      destruct (Z.eqb_spec (k - dow + 3) (-2)); simpl;
      Z.div_mod_to_equations; lia.
  - destruct (Z.lt_ge_cases (days - dow + 3) (jan1 (y + 1))) as [Hin|Hout].
    + (* the Thursday lies in the year of the day *)
      rewrite (year_of_days_unique (days - dow + 3) y) by lia.
      replace (days - dow + 3 - jan1 y) with (k - dow + 3) by lia.
      destruct (Z.eqb_spec ((k - dow + 3) / 7 + 1) 53) as [H53|H53];
        [|reflexivity].
      destruct (Z.ltb_spec (31 - d + dow) 3) as [Hlast|Hlast];
        [|reflexivity].
      exfalso.
      assert (Hlate : 334 + leap_day y <= k)
        by (Z.div_mod_to_equations; lia).
      destruct (Hdec Hlate) as [_ Hd]. lia.
    + (* the Thursday lies in the year after *)
      rewrite (year_of_days_unique (days - dow + 3) (y + 1)) by lia.
      assert (Hlate : 334 + leap_day y <= k) by lia.
      destruct (Hdec Hlate) as [_ Hd].
      assert (H53 : (k - dow + 3) / 7 + 1 = 53)
        by (Z.div_mod_to_equations; lia).
      rewrite H53. simpl (53 =? 53).
      destruct (Z.ltb_spec (31 - d + dow) 3) as [Hlast|Hlast]; [|lia].
      simpl. Z.div_mod_to_equations. lia.
Qed.

Theorem week_of_iso ns : week_of ns = iso_week (days_of_ns ns).
Proof.
  unfold week_of, year_of, month_of, day_of.
  pose proof (get_week_of_year_iso (days_of_ns ns)) as H.
  destruct (civil_from_days (days_of_ns ns)) as [[y m] d]. exact H.
Qed.

End IsoWeekFacts.

(** X9.  In every record of the output of [clean] that has a date,
    [InvoiceWeek] is the ISO 8601 week number of the day of
    [InvoiceDate]: the number, counted from the week of the first
    Thursday of a year, of the Monday-to-Sunday week the day lies
    in. *)
Theorem clean_InvoiceWeek_iso P df out :
  clean P df = Ok out ->
  forall r ns, In r (rows out) -> InvoiceDate r = DateTime (Timestamp ns) ->
    InvoiceWeek r = Some (IsoWeek.iso_week (Calendar.days_of_ns ns)).
Proof.
  intros H r ns Hr Hdate.
  destruct (PrepFacts.clean_Ok_In P _ _ _ H Hr) as (r0 & _ & _ & Hc).
  destruct (PrepFacts.clean_row_inv P _ _ Hc) as (t & z & _ & _ & ->).
  simpl in *. inversion Hdate; subst t. simpl.
  rewrite IsoWeekFacts.week_of_iso. reflexivity.
Qed.

Lemma clean_InvoiceWeek_iso_witness :
  clean IsoText.parse Samples.frame_mug = Ok Samples.frame_mug_cleaned
  /\ InvoiceWeek Samples.mug_cleaned
     = Some (IsoWeek.iso_week
               (Calendar.days_of_ns (Calendar.make_ns 2010 12 1 8 26 0))).
Proof.
  split; [reflexivity|].
  apply (clean_InvoiceWeek_iso IsoText.parse Samples.frame_mug
           Samples.frame_mug_cleaned).
  - reflexivity.
  - simpl. auto.
  - reflexivity.
Defined.

(* ================================================================= *)
(** * Integer customer identifiers held as floats *)

Module Float64Exact.

Import Float64 Float64Facts.

(** A mantissa of exactly 53 digits at an exponent of the format is
    not rounded. *)
Lemma binary_round_aux_exact sx m e :
  Zdigits2 (Zpos m) = 53 -> - 1074 <= e <= 971 ->
  binary_round_aux prec emax sx (Zpos m) e loc_Exact = S754_finite sx m e.
Proof.
  intros Hd He. unfold binary_round_aux, shr_fexp.
  rewrite Hd, fexp_eq.
  replace (Z.max (53 + e - 53) (- 1074) - e) with 0 by lia.
  cbn [shr shr_record_of_loc shr_m loc_of_shr_record round_nearest_even].
  rewrite Hd, fexp_eq.
  replace (Z.max (53 + e - 53) (- 1074) - e) with 0 by lia.
  cbn [shr shr_record_of_loc shr_m].
  change (emax - prec) with 971.
  destruct (Z.leb_spec e 971); [reflexivity|lia].
Qed.

Lemma Zdigits2_bound m : Zpos m < 2 ^ 53 -> 1 <= Zdigits2 (Zpos m) <= 53.
Proof.
  intros H. rewrite Zdigits2_log2 by lia.
  pose proof (Z.log2_nonneg (Zpos m)).
  assert (Z.log2 (Zpos m) < 53) by (apply Z.log2_lt_pow2; lia). lia.
Qed.

(** An integer below [2^53] in magnitude is a float, exactly: the
    conversion keeps its value. *)
Theorem trunc_of_int z : - 2 ^ 53 < z < 2 ^ 53 -> trunc (of_int z) = z.
Proof.
  intros Hz.
  assert (Hpos : forall sx m, Zpos m < 2 ^ 53 ->
            trunc (binary_round prec emax sx m 0) = cond_Zopp sx (Zpos m)).
  { intros sx m Hm. pose proof (Zdigits2_bound m Hm) as Hd.
    unfold binary_round, shl_align. rewrite fexp_eq.
    change (Z.pos (digits2_pos m)) with (Zdigits2 (Zpos m)).
    set (d := Zdigits2 (Zpos m)) in *.
    replace (Z.max (d + 0 - 53) (- 1074)) with (d - 53) by lia.
    destruct (d - 53 - 0) as [|k|k] eqn:Ek; try lia.
    - rewrite binary_round_aux_exact by (fold d; lia).
      simpl. reflexivity.
    - assert (Hmag : Zdigits2 (Zpos (Pos.iter xO m k)) = 53).
      { rewrite Zdigits2_log2 by lia.
        rewrite Float64Magnitude.Zpos_iter_xO.
        rewrite Z.log2_mul_pow2 by lia.
        unfold d in Ek. rewrite Zdigits2_log2 in Ek by lia. lia. }
      rewrite binary_round_aux_exact by (try exact Hmag; lia).
      unfold trunc. f_equal.
      rewrite Float64Magnitude.Zpos_iter_xO.
      replace (d - 53) with (- Zpos k) by lia.
      rewrite Z.shiftl_opp_r, Z.shiftr_div_pow2 by lia.
      apply Z.div_mul. apply Z.pow_nonzero; lia. }
  destruct z as [|m|m]; [reflexivity| |].
  - unfold of_int, binary_normalize. rewrite Hpos by lia. reflexivity.
  - unfold of_int, binary_normalize. rewrite Hpos by lia. reflexivity.
Qed.

Lemma of_int_finite z : - 2 ^ 53 < z < 2 ^ 53 -> isfinite (of_int z) = true.
Proof.
  intros Hz. destruct z as [|m|m]; [reflexivity| |];
    unfold of_int, binary_normalize, binary_round, shl_align;
    rewrite fexp_eq;
    pose proof (Zdigits2_bound m ltac:(lia)) as Hd;
    change (Z.pos (digits2_pos m)) with (Zdigits2 (Zpos m));
    set (d := Zdigits2 (Zpos m)) in *;
    replace (Z.max (d + 0 - 53) (- 1074)) with (d - 53) by lia;
    destruct (d - 53 - 0) as [|k|k] eqn:Ek; try lia.
  - rewrite binary_round_aux_exact by (fold d; lia). reflexivity.
  - rewrite binary_round_aux_exact; [reflexivity| |lia].
    rewrite Zdigits2_log2 by lia.
    rewrite Float64Magnitude.Zpos_iter_xO.
    rewrite Z.log2_mul_pow2 by lia.
    unfold d in Ek. rewrite Zdigits2_log2 in Ek by lia. lia.
  - rewrite binary_round_aux_exact by (fold d; lia). reflexivity.
  - rewrite binary_round_aux_exact; [reflexivity| |lia].
    rewrite Zdigits2_log2 by lia.
    rewrite Float64Magnitude.Zpos_iter_xO.
    rewrite Z.log2_mul_pow2 by lia.
    unfold d in Ek. rewrite Zdigits2_log2 in Ek by lia. lia.
Qed.

End Float64Exact.

(** X14.  A customer identifier that is an integer below [2^53] in
    magnitude, held as a float because the column has missing values,
    comes out of [clean] as that same integer. *)
Theorem clean_Customer_ID_restored P df out :
  clean P df = Ok out ->
  Forall2 (fun r0 r =>
             forall z, - 2 ^ 53 < z < 2 ^ 53 ->
                       Customer_ID r0 = NFloat (of_int z) ->
                       Customer_ID r = NInt z)
          (filter retained (rows df)) (rows out).
Proof.
  intros H. apply PrepFacts.clean_Ok_rows in H. destruct H as [H _].
  induction H as [|r0 r l l' Hc _ IH]; constructor; [|exact IH].
  intros z Hz Hv.
  destruct (PrepFacts.clean_row_inv P _ _ Hc) as (t & z' & _ & Hz' & ->).
  simpl. rewrite Hv in Hz'. simpl in Hz'.
  rewrite Float64Exact.of_int_finite in Hz' by assumption.
  inversion Hz' as [Hz'']. unfold to_int64.
  rewrite Float64Exact.trunc_of_int by assumption.
  assert (Hfit : in_int64 z = true).
  { unfold in_int64, min_int64, max_int64.
    apply andb_true_iff. split; apply Z.leb_le; lia. }
  rewrite Hfit. reflexivity.
Qed.

Lemma clean_Customer_ID_restored_witness :
  clean IsoText.parse Samples.frame_blank = Ok [(0, Samples.blank_cleaned)]
  /\ Forall2 (fun r0 r =>
               forall z, - 2 ^ 53 < z < 2 ^ 53 ->
                         Customer_ID r0 = NFloat (of_int z) ->
                         Customer_ID r = NInt z)
            (filter retained (rows Samples.frame_blank))
            (rows [(0, Samples.blank_cleaned)]).
Proof.
  split; [reflexivity|].
  apply (clean_Customer_ID_restored IsoText.parse Samples.frame_blank).
  reflexivity.
Defined.
